(** * pocket-tagger: a shallow embedding of [pocket-tagger.py]

    The script authenticates against the Pocket API, fetches the unread
    articles that carry no tag, asks a chat-completion model for tags drawn
    from the module-level [TAG_LIST], and writes the tags back.

    Python values that come out of [json.loads] are embedded as the
    inductive [value]; a [dict] is an association list in insertion order
    (what [.items()] iterates over).  Every function of the script that
    talks to the outside is written in a small state-and-exception monad
    [M]: the state holds the one mutable module-level object ([TAG_LIST])
    and the trace of effects performed so far; the answers of the outside
    (HTTP responses, the model's reply, the console) are read from a
    [world].

    Limits of the model.  Strings are sequences of characters with code
    below 256.  The exceptions are the instances of [Exception]: a signal
    such as [KeyboardInterrupt], which [except Exception] does not catch,
    is not modelled.  [print] and [logger.error] are taken to succeed. *)

From Stdlib Require Import ZArith Ascii String DecimalString.
From Stdlib Require Import Floats.PrimFloat.
From stdpp Require Import base option list strings.

Local Open Scope string_scope.
Local Open Scope Z_scope.
Local Open Scope list_scope.

(** ** Python strings *)

Module Str.

(** [str.isspace] on one character, for the code points below 256:
    TAB..CR, FS..US, SPACE, NEL and NBSP. *)
Definition isspace (c : ascii) : bool :=
  let n := N_of_ascii c in
  ((9 <=? n) && (n <=? 13) || (28 <=? n) && (n <=? 32)
   || (n =? 133) || (n =? 160))%N.

Fixpoint lstrip (s : string) : string :=
  match s with
  | EmptyString => EmptyString
  | String c s' => if isspace c then lstrip s' else s
  end.

Fixpoint rstrip (s : string) : string :=
  match s with
  | EmptyString => EmptyString
  | String c s' =>
      match rstrip s' with
      | EmptyString => if isspace c then EmptyString else String c EmptyString
      | r => String c r
      end
  end.

(** [s.strip()] *)
Definition strip (s : string) : string := rstrip (lstrip s).

(** [s.split(sep)] for a separator of one character: always at least one
    piece, empty pieces are kept. *)
Fixpoint split (sep : ascii) (s : string) : list string :=
  match s with
  | EmptyString => [EmptyString]
  | String c s' =>
      if Ascii.eqb c sep then EmptyString :: split sep s'
      else match split sep s' with
           | p :: ps => String c p :: ps
           | [] => [String c EmptyString]
           end
  end.

(** [sep.join(l)] *)
Fixpoint join (sep : string) (l : list string) : string :=
  match l with
  | [] => EmptyString
  | [x] => x
  | x :: rest => x +:+ sep +:+ join sep rest
  end.

(** [sub in s] on strings. *)
Fixpoint contains (sub s : string) : bool :=
  String.prefix sub s ||
  match s with
  | EmptyString => false
  | String _ s' => contains sub s'
  end.

(** [bool(s)] *)
Definition nonempty (s : string) : bool :=
  match s with EmptyString => false | _ => true end.

(** Number of occurrences of a character. *)
Fixpoint count (c : ascii) (s : string) : nat :=
  match s with
  | EmptyString => 0%nat
  | String a s' => ((if Ascii.eqb a c then 1 else 0) + count c s')%nat
  end.

Definition nl : string := String (ascii_of_nat 10) EmptyString.

End Str.

(** ** Python values and exceptions *)

(** What [json.loads] produces: [None], [bool], [int], [float], [str],
    [list] and [dict]. *)
#[local] Unset Elimination Schemes.
Inductive value :=
| VNone
| VBool (b : bool)
| VInt (n : Z)
| VFloat (f : float)
| VStr (s : string)
| VList (xs : list value)
| VDict (kvs : list (string * value)).
#[local] Set Elimination Schemes.

(** Instances of [Exception] the script can meet. *)
Inductive exn :=
| HTTPError (status : Z)
| JSONDecodeError
| KeyError (key : string)
| TypeError
| AttributeError
| IndexError
| EnvError (msg : string).

Inductive result (A : Type) :=
| Ok (a : A)
| Raise (e : exn).
Arguments Ok {A} a.
Arguments Raise {A} e.

Module Py.

(** [bool(v)] *)
Definition truthy (v : value) : bool :=
  match v with
  | VNone => false
  | VBool b => b
  | VInt n => negb (n =? 0)
  | VFloat f => negb (PrimFloat.eqb f 0%float)
  | VStr s => Str.nonempty s
  | VList xs => match xs with [] => false | _ => true end
  | VDict kvs => match kvs with [] => false | _ => true end
  end.

(** [v == 1]: [True == 1] and [1.0 == 1] hold in Python. *)
Definition eq_1 (v : value) : bool :=
  match v with
  | VInt m => m =? 1
  | VBool b => b
  | VFloat f => PrimFloat.eqb f 1%float
  | _ => false
  end.

(** Lookup of a key in the entries of a [dict]. *)
Fixpoint dict_lookup (k : string) (kvs : list (string * value)) : option value :=
  match kvs with
  | [] => None
  | (k', v) :: rest => if String.eqb k k' then Some v else dict_lookup k rest
  end.

(** [v.get(k, dflt)]: only a [dict] has the method. *)
Definition get (v : value) (k : string) (dflt : value) : result value :=
  match v with
  | VDict kvs => Ok (default dflt (dict_lookup k kvs))
  | _ => Raise AttributeError
  end.

(** [v[k]] for a [str] key. *)
Definition getitem (v : value) (k : string) : result value :=
  match v with
  | VDict kvs =>
      match dict_lookup k kvs with
      | Some x => Ok x
      | None => Raise (KeyError k)
      end
  | _ => Raise TypeError
  end.

(** [k in v] for a [str] [k]: key of a [dict], element of a [list],
    substring of a [str]; the other values are not iterable. *)
Definition contains (k : string) (v : value) : result bool :=
  match v with
  | VDict kvs => Ok (bool_decide (is_Some (dict_lookup k kvs)))
  | VList xs =>
      Ok (existsb (fun x => match x with VStr s => String.eqb s k | _ => false end) xs)
  | VStr s => Ok (Str.contains k s)
  | _ => Raise TypeError
  end.

(** [v.items()] *)
Definition items (v : value) : result (list (string * value)) :=
  match v with
  | VDict kvs => Ok kvs
  | _ => Raise AttributeError
  end.

End Py.

(** ** The outside world and the effects of the script *)

(** A [requests.Response], as far as the script looks at it. *)
Record response := {
  status_code : Z;
  headers : list (string * string);
  text : string
}.

(** Keyword arguments of [client.chat.completions.create]. *)
Record chat_request := {
  model : string;
  messages : list (string * string);   (* role, content *)
  temperature : float;
  max_tokens : Z
}.

(** What the script does to the outside, in the order it does it. *)
Inductive event :=
| RequestsPost (url : string) (json : value) (hdrs : list (string * string))
| ChatCreate (req : chat_request)
| WebbrowserOpen (url : string) (new : Z)
| Input (prompt : string)
| Print (line : string)
| LoggerError (msg : string).

(** The state of the process: the module-level list object [TAG_LIST] and
    the effects performed so far. *)
Record store := {
  TAG_LIST_obj : list string;
  trace : list event
}.

(** The answers of the outside.  Every oracle sees the effects performed
    before the call, so a server may answer the same request differently
    the second time.  [repr] and [str_exn] are Python's own formatting of
    values and exceptions, [loads] and [dumps] are the [json] module. *)
Record world := {
  getenv : string -> option string;
  requests_post :
    list event -> string -> value -> list (string * string) -> result response;
  loads : string -> result value;
  dumps : value -> string;
  Groq : option string -> result unit;
  chat_completions_create :
    list event -> chat_request -> result (list (option string));
  webbrowser_open : list event -> string -> Z -> result bool;
  input : list event -> string -> result string;
  repr : value -> string;
  str_exn : exn -> string
}.

(** Header names of a response compare without case
    ([requests.structures.CaseInsensitiveDict]). *)
Definition lower_ascii (c : ascii) : ascii :=
  let n := N_of_ascii c in
  if ((65 <=? n) && (n <=? 90)
      || (192 <=? n) && (n <=? 222) && negb (n =? 215))%N
  then ascii_of_N (n + 32) else c.

Fixpoint lower (s : string) : string :=
  match s with
  | EmptyString => EmptyString
  | String c s' => String (lower_ascii c) (lower s')
  end.

(** [response.headers.get(name)] *)
Fixpoint headers_get (name : string) (hs : list (string * string)) : option string :=
  match hs with
  | [] => None
  | (k, v) :: rest =>
      if String.eqb (lower k) (lower name) then Some v else headers_get name rest
  end.

(** ** The monad of the script: state and exceptions *)

Definition M (A : Type) : Type := store -> result A * store.

Definition ret {A} (a : A) : M A := fun s => (Ok a, s).

Definition raise {A} (e : exn) : M A := fun s => (Raise e, s).

Definition bind {A B} (m : M A) (k : A -> M B) : M B :=
  fun s =>
    match m s with
    | (Ok a, s') => k a s'
    | (Raise e, s') => (Raise e, s')
    end.

(** [try: body except Exception as e: handler(e)] *)
Definition try_except {A} (body : M A) (handler : exn -> M A) : M A :=
  fun s =>
    match body s with
    | (Ok a, s') => (Ok a, s')
    | (Raise e, s') => handler e s'
    end.

Definition lift {A} (r : result A) : M A := fun s => (r, s).

Definition emit (e : event) : M unit :=
  fun s => (Ok tt, {| TAG_LIST_obj := TAG_LIST_obj s; trace := trace s ++ [e] |}).

(** An effect whose answer comes from the world: the oracle reads the
    effects so far, then the effect is recorded. *)
Definition ask {A} (e : event) (oracle : list event -> result A) : M A :=
  fun s =>
    (oracle (trace s),
     {| TAG_LIST_obj := TAG_LIST_obj s; trace := trace s ++ [e] |}).

(** Reading the global [TAG_LIST]. *)
Definition read_TAG_LIST : M (list string) := fun s => (Ok (TAG_LIST_obj s), s).

Declare Scope py_scope.
Delimit Scope py_scope with py.
Notation "x <- c1 ;; c2" := (bind c1 (fun x => c2))
  (at level 100, c1 at next level, right associativity) : py_scope.
Notation "c1 ;; c2" := (bind c1 (fun _ => c2))
  (at level 100, right associativity) : py_scope.
Local Open Scope py_scope.

(** ** Module-level constants *)

Definition BASE_URL : string := "https://getpocket.com".
Definition REDIRECT_URL : string := "localhost".

(** Predefined list of candidate tags. *)
Definition TAG_LIST : list string :=
  ["ai/ml"; "amazon"; "apple"; "auto"; "books"; "business"; "design"; "dev";
   "dogs"; "edu"; "facebook"; "funny"; "future"; "google"; "harvard";
   "history"; "hockey"; "life"; "longreads"; "math"; "media"; "microsoft";
   "misc"; "music"; "news"; "parenting"; "policy"; "reviews"; "science";
   "seattle"; "security"; "sfbay"; "sports"; "tech"; "tv"; "video games";
   "videos"; "work"].

(** The store once the module body has run. *)
Definition initial_store : store := {| TAG_LIST_obj := TAG_LIST; trace := [] |}.

(** [None] for an unset variable, as [os.getenv] gives it. *)
Definition of_env (o : option string) : value :=
  match o with Some s => VStr s | None => VNone end.

(** ** The script *)

Section Script.

Variable W : world.

Definition CONSUMER_KEY : option string := getenv W "POCKET_CONSUMER_KEY".
Definition GROQ_API_KEY : option string := getenv W "GROQ_API".

(** [str(v)], which is what an f-string does to [{v}]: a [str] is left as
    it is, [None], [bool] and [int] have their fixed spelling, the other
    values are formatted by Python ([repr] of the world). *)
Definition str (v : value) : string :=
  match v with
  | VStr s => s
  | VNone => "None"
  | VBool b => if b then "True" else "False"
  | VInt n => NilZero.string_of_int (Z.to_int n)
  | _ => repr W v
  end.

Definition print (line : string) : M unit := emit (Print line).

(** [a or b] *)
Definition or_ (a b : M value) : M value :=
  x <- a ;; if Py.truthy x then ret x else b.

(** [response.raise_for_status()]: [HTTPError] for a 4xx or 5xx status. *)
Definition raise_for_status (r : response) : M unit :=
  if (400 <=? status_code r) && (status_code r <? 600)
  then raise (HTTPError (status_code r))
  else ret tt.

(** [requests.post(url, json=data, headers=hdrs)] *)
Definition requests_post_ (url : string) (data : value)
    (hdrs : list (string * string)) : M response :=
  ask (RequestsPost url data hdrs) (fun h => requests_post W h url data hdrs).

(** [response.json()] *)
Definition response_json (r : response) : M value := lift (loads W (text r)).

(** *** Pocket API OAuth functions *)

Definition post (url : string) (data : value) : M value :=
  let hdrs := [("Content-Type", "application/json");
               ("X-Accept", "application/json")] in
  response <- requests_post_ url data hdrs ;;
  let error := headers_get "X-Error" (headers response) in
  print ("Status code: " +:+ str (VInt (status_code response))) ;;
  print ("Response text: " +:+ text response) ;;
  match error with
  | Some (String _ _ as err) =>
      emit (LoggerError (str (VInt (status_code response)) +:+ ", " +:+ err)) ;;
      raise_for_status response ;;
      ret VNone
  | _ =>
      if Str.nonempty (Str.strip (text response))
      then response_json response
      else ret (VDict [])
  end.

Definition request_code : M value :=
  let payload := VDict [("consumer_key", of_env CONSUMER_KEY);
                        ("redirect_uri", VStr REDIRECT_URL)] in
  response <- post (BASE_URL +:+ "/v3/oauth/request") payload ;;
  lift (Py.getitem response "code").

Definition request_access_token (code : value) : M value :=
  let payload := VDict [("consumer_key", of_env CONSUMER_KEY);
                        ("code", code)] in
  response <- post (BASE_URL +:+ "/v3/oauth/authorize") payload ;;
  lift (Py.getitem response "access_token").

Definition request_authorization (code : value) : M unit :=
  let url := BASE_URL +:+ "/auth/authorize?request_token=" +:+ str code
             +:+ "&redirect_uri=" +:+ REDIRECT_URL in
  ask (WebbrowserOpen url 2) (fun h => webbrowser_open W h url 2) ;;
  ret tt.

(** *** Groq API functions *)

Definition prompt_of (title url excerpt : value) (tags : list string) : string :=
  Str.nl
  +:+ "    I have an article with the following details:" +:+ Str.nl
  +:+ "    " +:+ Str.nl
  +:+ "    Title: " +:+ str title +:+ Str.nl
  +:+ "    URL: " +:+ str url +:+ Str.nl
  +:+ "    Excerpt: " +:+ str excerpt +:+ Str.nl
  +:+ "    " +:+ Str.nl
  +:+ "    Based on this information, suggest 1-5 tags from the following list that best match this article's content:" +:+ Str.nl
  +:+ "    " +:+ Str.join ", " tags +:+ Str.nl
  +:+ "    " +:+ Str.nl
  +:+ "    Respond with ONLY the most relevant tags separated by commas. No explanations or additional text." +:+ Str.nl
  +:+ "    ".

Definition chat_request_of (prompt : string) : chat_request :=
  {| model := "llama3-8b-8192";
     messages :=
       [("system", "You are a helpful assistant that suggests relevant tags for articles.");
        ("user", prompt)];
     temperature := 0x1.3333333333333p-2%float;   (* 0.3 *)
     max_tokens := 50 |}.

(** [article.get('resolved_title') or article.get('given_title') or 'No title'] *)
Definition title_of (article : value) : M value :=
  or_ (lift (Py.get article "resolved_title" VNone))
      (or_ (lift (Py.get article "given_title" VNone))
           (ret (VStr "No title"))).

Definition url_of (article : value) : M value :=
  or_ (lift (Py.get article "resolved_url" VNone))
      (or_ (lift (Py.get article "given_url" VNone))
           (ret (VStr "No URL"))).

Definition get_tag_suggestions (article : value) : M (list string) :=
  lift (Groq W GROQ_API_KEY) ;;
  title <- title_of article ;;
  url <- url_of article ;;
  excerpt <- lift (Py.get article "excerpt" (VStr "")) ;;
  vocabulary <- read_TAG_LIST ;;
  let prompt := prompt_of title url excerpt vocabulary in
  try_except
    (print ("Requesting tag suggestions for: " +:+ str title) ;;
     let req := chat_request_of prompt in
     choices <- ask (ChatCreate req) (fun h => chat_completions_create W h req) ;;
     choice <- lift (match choices with c :: _ => Ok c | [] => Raise IndexError end) ;;
     content <- lift (match choice with Some c => Ok c | None => Raise AttributeError end) ;;
     let suggested_tags_text := Str.strip content in
     let suggested_tags := map Str.strip (Str.split "," suggested_tags_text) in
     vocabulary <- read_TAG_LIST ;;
     let valid_tags := filter (fun tag => tag ∈ vocabulary) suggested_tags in
     print ("Suggested tags: " +:+ Str.join ", " valid_tags) ;;
     ret valid_tags)
    (fun e =>
       print ("Error getting tag suggestions from Groq: " +:+ str_exn W e) ;;
       ret []).

(** *** Pocket API functions *)

Definition authenticate_pocket : M value :=
  code <- request_code ;;
  request_authorization code ;;
  ask (Input "Press any key after authorizing app...")
      (fun h => input W h "Press any key after authorizing app...") ;;
  request_access_token code.

(** The loop of [get_unread_articles] over [data["list"].items()]. *)
Fixpoint collect_untagged (items articles : list (string * value))
    : M (list (string * value)) :=
  match items with
  | [] => ret articles
  | (article_id, article) :: rest =>
      tags <- lift (Py.get article "tags" VNone) ;;
      if negb (Py.truthy tags)
      then collect_untagged rest (articles ++ [(article_id, article)])
      else collect_untagged rest articles
  end.

(** The [payload] of [get_unread_articles]. *)
Definition get_payload (token : value) : value :=
  VDict [("consumer_key", of_env CONSUMER_KEY);
         ("access_token", token);
         ("state", VStr "unread");
         ("detailType", VStr "complete");
         ("tag", VStr "_untagged_")].

Definition get_unread_articles (token : value) : M (list (string * value)) :=
  let url := "https://getpocket.com/v3/get" in
  let payload := get_payload token in
  print "Fetching unread articles from Pocket..." ;;
  response <- requests_post_ url payload [] ;;
  data <- response_json response ;;
  has_list <- lift (Py.contains "list" data) ;;
  articles <-
    (if has_list : bool then
       lst <- lift (Py.getitem data "list") ;;
       items <- lift (Py.items lst) ;;
       collect_untagged items []
     else ret []) ;;
  print ("Found " +:+ str (VInt (Z.of_nat (length articles)))
         +:+ " unread articles without tags." +:+ Str.nl) ;;
  ret articles.

(** The [payload] of [add_tags_to_article]. *)
Definition send_payload (token : value) (article_id : string)
    (tags : list string) : value :=
  VDict [("consumer_key", of_env CONSUMER_KEY);
         ("access_token", token);
         ("actions",
          VStr (dumps W (VList [VDict [("action", VStr "tags_add");
                                       ("item_id", VStr article_id);
                                       ("tags", VStr (Str.join "," tags))]])))].

Definition add_tags_to_article (token : value) (article_id : string)
    (tags : list string) : M bool :=
  match tags with
  | [] => ret false
  | _ :: _ =>
      let url := BASE_URL +:+ "/v3/send" in
      let payload := send_payload token article_id tags in
      try_except
        (print ("Adding tags to article " +:+ article_id +:+ ": "
                +:+ Str.join ", " tags) ;;
         response <- requests_post_ url payload [] ;;
         raise_for_status response ;;
         data <- response_json response ;;
         status <- lift (Py.get data "status" (VInt 0)) ;;
         ret (Py.eq_1 status))
        (fun e => print ("Error adding tags: " +:+ str_exn W e) ;; ret false)
  end.

(** The body of the [for] loop of [main]. *)
Definition process_article (access_token : value) (entry : string * value) : M unit :=
  let '(article_id, article) := entry in
  title <- lift (Py.get article "resolved_title" (VStr "No title")) ;;
  url <- lift (Py.get article "resolved_url" (VStr "No URL")) ;;
  print ("Article: " +:+ str title +:+ " - " +:+ str url) ;;
  suggested_tags <- get_tag_suggestions article ;;
  add_tags_to_article access_token article_id suggested_tags ;;
  ret tt.

Fixpoint for_each {A} (l : list A) (body : A -> M unit) : M unit :=
  match l with
  | [] => ret tt
  | x :: rest => body x ;; for_each rest body
  end.

Definition main : M unit :=
  access_token <- authenticate_pocket ;;
  print "Successfully authenticated with Pocket" ;;
  unread_articles <- get_unread_articles access_token ;;
  match unread_articles with
  | _ :: _ =>
      print ("Processing " +:+ str (VInt (Z.of_nat (length unread_articles)))
             +:+ " unread articles...") ;;
      for_each unread_articles (process_article access_token)
  | [] => print "No unread articles found without tags."
  end.

End Script.

(** ** Sample worlds

    Concrete worlds on which the script can be run by computation. *)

(** No network, no model: every request raises. *)
Definition offline : world :=
  {| getenv := fun _ => None;
     requests_post := fun _ _ _ _ => Raise (EnvError "ConnectionError");
     loads := fun _ => Raise JSONDecodeError;
     dumps := fun _ => "[...]";
     Groq := fun _ => Ok tt;
     chat_completions_create := fun _ _ => Raise (EnvError "APIConnectionError");
     webbrowser_open := fun _ _ _ => Ok true;
     input := fun _ _ => Ok EmptyString;
     repr := fun _ => "<object>";
     str_exn := fun _ => "<exception>" |}.

(** The model answers every request with one choice holding [reply]. *)
Definition answering (reply : string) : world :=
  {| getenv := getenv offline;
     requests_post := requests_post offline;
     loads := loads offline;
     dumps := dumps offline;
     Groq := Groq offline;
     chat_completions_create := fun _ _ => Ok [Some reply];
     webbrowser_open := webbrowser_open offline;
     input := input offline;
     repr := repr offline;
     str_exn := str_exn offline |}.

(** The service answers every request with the response [r], whose body
    parses to [parsed]. *)
Definition serving (r : response) (parsed : result value) : world :=
  {| getenv := getenv offline;
     requests_post := fun _ _ _ _ => Ok r;
     loads := fun body =>
       if String.eqb body (text r) then parsed else Raise JSONDecodeError;
     dumps := dumps offline;
     Groq := Groq offline;
     chat_completions_create := chat_completions_create offline;
     webbrowser_open := webbrowser_open offline;
     input := input offline;
     repr := repr offline;
     str_exn := str_exn offline |}.

Definition http (status : Z) (hdrs : list (string * string)) (body : string) : response :=
  {| status_code := status; headers := hdrs; text := body |}.

(** A name or a string between double quotes, as JSON writes it. *)
Definition quoted (s : string) : string :=
  String (ascii_of_nat 34) s +:+ String (ascii_of_nat 34) EmptyString.

(** The bodies [{"status": 1}] and [{"code": "abc"}]. *)
Definition status_1_text : string := "{" +:+ quoted "status" +:+ ": 1}".
Definition code_text : string :=
  "{" +:+ quoted "code" +:+ ": " +:+ quoted "abc" +:+ "}".

(** The body of the fetch response of the end-to-end scenario. *)
Definition scenario_text : string :=
  "{" +:+ quoted "list" +:+ ": {"
  +:+ quoted "1" +:+ ": {" +:+ quoted "resolved_title" +:+ ": " +:+ quoted "X"
  +:+ ", " +:+ quoted "tags" +:+ ": {}}, "
  +:+ quoted "2" +:+ ": {" +:+ quoted "resolved_title" +:+ ": " +:+ quoted "Y"
  +:+ ", " +:+ quoted "tags" +:+ ": {" +:+ quoted "a" +:+ ":1}}}}".

(** The fetch response of the end-to-end scenario:
    one article without tags, one with the tag [a]. *)
Definition scenario_data : value :=
  VDict [("list",
          VDict [("1", VDict [("resolved_title", VStr "X"); ("tags", VDict [])]);
                 ("2", VDict [("resolved_title", VStr "Y");
                              ("tags", VDict [("a", VInt 1)])])])].

(** ** Vocabulary of the statements *)

(** The record holds the value [v], not an empty one, under [key]. *)
Definition holds (kvs : list (string * value)) (key : string) (v : value) : Prop :=
  Py.dict_lookup key kvs = Some v /\ Py.truthy v = true.

(** The record holds nothing under [key]: no entry, or a value that Python
    takes for empty ([{}], [[]], [''], [None], [False], [0]). *)
Definition lacks (kvs : list (string * value)) (key : string) : Prop :=
  match Py.dict_lookup key kvs with
  | None => True
  | Some v => Py.truthy v = false
  end.

(** The article is a record without tags: no ["tags"] entry, or an empty
    one. *)
Definition untagged (article : value) : Prop :=
  match article with
  | VDict kvs => lacks kvs "tags"
  | _ => False
  end.

#[global] Instance untagged_dec article : Decision (untagged article).
Proof.
  destruct article; simpl; try (right; tauto).
  unfold lacks.
  destruct (Py.dict_lookup "tags" kvs); [apply bool_eq_dec | left; exact I].
Defined.

Definition is_dict (v : value) : Prop :=
  match v with VDict _ => True | _ => False end.


(** A computation that leaves the list object [TAG_LIST] as it found it. *)
Definition keeps_TAG_LIST {A} (m : M A) : Prop :=
  forall s, TAG_LIST_obj (m s).2 = TAG_LIST_obj s.

(** A computation that only adds to the trace. *)
Definition extends_trace {A} (P : event -> Prop) (m : M A) : Prop :=
  forall s, exists new, trace (m s).2 = trace s ++ new /\ Forall P new.

(** [f] applied to the last element of a list. *)
Fixpoint on_last {A} (f : A -> A) (l : list A) : list A :=
  match l with
  | [] => []
  | [x] => [f x]
  | x :: rest => x :: on_last f rest
  end.

Fixpoint all_space (s : string) : bool :=
  match s with
  | EmptyString => true
  | String c s' => Str.isspace c && all_space s'
  end.

(** What the service answers to the request of [post]. *)
Definition post_answer (W : world) (url : string) (data : value) (s : store)
    : result response :=
  requests_post W (trace s) url data
    [("Content-Type", "application/json"); ("X-Accept", "application/json")].

(** What the service answers to the request of [request_code]. *)
Definition code_answer (W : world) (s : store) : result response :=
  post_answer W (BASE_URL +:+ "/v3/oauth/request")
    (VDict [("consumer_key", of_env (CONSUMER_KEY W));
            ("redirect_uri", VStr REDIRECT_URL)]) s.

(** What the service answers to the request of [get_unread_articles]. *)
Definition fetch_answer (W : world) (token : value) (s : store) : result response :=
  requests_post W (trace s ++ [Print "Fetching unread articles from Pocket..."])
    "https://getpocket.com/v3/get" (get_payload W token) [].

(** What the service answers to the request of [add_tags_to_article]. *)
Definition send_answer (W : world) (token : value) (article_id : string)
    (tags : list string) (s : store) : result response :=
  requests_post W
    (trace s ++ [Print ("Adding tags to article " +:+ article_id +:+ ": "
                        +:+ Str.join ", " tags)])
    (BASE_URL +:+ "/v3/send") (send_payload W token article_id tags) [].

(** The status for which [raise_for_status] raises. *)
Definition error_status (r : response) : Prop :=
  400 <= status_code r < 600.

(** The response carries a service error: a non-empty [X-Error] header. *)
Definition flagged (r : response) : Prop :=
  exists err, headers_get "X-Error" (headers r) = Some err /\ err <> EmptyString.

(** A world in which the service hands out a code and the console is at
    its end. *)
Definition no_console : world :=
  {| getenv := getenv offline;
     requests_post := fun _ _ _ _ => Ok (http 200 [] code_text);
     loads := fun _ => Ok (VDict [("code", VStr "abc")]);
     dumps := dumps offline;
     Groq := Groq offline;
     chat_completions_create := chat_completions_create offline;
     webbrowser_open := webbrowser_open offline;
     input := fun _ _ => Raise (EnvError "EOFError");
     repr := repr offline;
     str_exn := str_exn offline |}.

(** What the service answers to the request of [request_access_token]. *)
Definition token_answer (W : world) (code : value) (s : store) : result response :=
  post_answer W (BASE_URL +:+ "/v3/oauth/authorize")
    (VDict [("consumer_key", of_env (CONSUMER_KEY W)); ("code", code)]) s.

(** The headers [post] sends. *)
Definition json_headers : list (string * string) :=
  [("Content-Type", "application/json"); ("X-Accept", "application/json")].

(** The address [request_authorization] opens for the code [code]. *)
Definition authorize_url (W : world) (code : value) : string :=
  BASE_URL +:+ "/auth/authorize?request_token=" +:+ str W code
  +:+ "&redirect_uri=" +:+ REDIRECT_URL.

(** The store [s] after the events [new]. *)
Definition after (s : store) (new : list event) : store :=
  {| TAG_LIST_obj := TAG_LIST_obj s; trace := trace s ++ new |}.

(** Output to the console or the log: nothing that leaves the process. *)
Definition quiet (e : event) : Prop :=
  match e with
  | Print _ | LoggerError _ => True
  | _ => False
  end.

Definition is_chat (e : event) : bool :=
  match e with ChatCreate _ => true | _ => false end.

Definition is_post (e : event) : bool :=
  match e with RequestsPost _ _ _ => true | _ => false end.

(** A request to the endpoint that writes tags. *)
Definition is_send (e : event) : bool :=
  match e with
  | RequestsPost url _ _ => String.eqb url (BASE_URL +:+ "/v3/send")
  | _ => false
  end.

(** Number of events of a kind in a trace. *)
Fixpoint count_events (p : event -> bool) (l : list event) : nat :=
  match l with
  | [] => 0%nat
  | e :: rest => ((if p e then 1 else 0) + count_events p rest)%nat
  end.

(** The title, the address and the excerpt [get_tag_suggestions] takes from
    a record. *)
Definition chosen (kvs : list (string * value)) (first second : string)
    (fallback : string) : value :=
  let a := default VNone (Py.dict_lookup first kvs) in
  let b := default VNone (Py.dict_lookup second kvs) in
  if Py.truthy a then a else if Py.truthy b then b else VStr fallback.

(** The request [get_tag_suggestions] sends for a record. *)
Definition chat_request_for (W : world) (kvs : list (string * value))
    (s : store) : chat_request :=
  chat_request_of
    (prompt_of W (chosen kvs "resolved_title" "given_title" "No title")
       (chosen kvs "resolved_url" "given_url" "No URL")
       (default (VStr "") (Py.dict_lookup "excerpt" kvs))
       (TAG_LIST_obj s)).

(** The line printed before the model is asked. *)
Definition requesting_line (W : world) (kvs : list (string * value)) : string :=
  "Requesting tag suggestions for: "
  +:+ str W (chosen kvs "resolved_title" "given_title" "No title").

(** What the model answers to the request of [get_tag_suggestions]. *)
Definition chat_answer (W : world) (kvs : list (string * value)) (s : store)
    : result (list (option string)) :=
  chat_completions_create W (trace s ++ [Print (requesting_line W kvs)])
    (chat_request_for W kvs s).

(** A tag without comma and without white space around it. *)
Definition clean (t : string) : Prop :=
  Str.count "," t = 0%nat /\ Str.strip t = t.

(** An event that is neither a request to the model nor a request that
    writes tags. *)
Definition no_tagging (e : event) : Prop :=
  is_chat e = false /\ is_send e = false.

(** The requests sent to the model, in the order of a trace. *)
Fixpoint chat_requests (l : list event) : list chat_request :=
  match l with
  | [] => []
  | ChatCreate req :: rest => req :: chat_requests rest
  | _ :: rest => chat_requests rest
  end.

(** The entries of a record. *)
Definition fields (article : value) : list (string * value) :=
  match article with VDict kvs => kvs | _ => [] end.

(** The service answers as in [serving]; the client of the model cannot be
    built. *)
Definition without_client (r : response) (parsed : result value) : world :=
  {| getenv := getenv offline;
     requests_post := fun _ _ _ _ => Ok r;
     loads := fun body =>
       if String.eqb body (text r) then parsed else Raise JSONDecodeError;
     dumps := dumps offline;
     Groq := fun _ => Raise (EnvError "GroqError");
     chat_completions_create := chat_completions_create offline;
     webbrowser_open := webbrowser_open offline;
     input := input offline;
     repr := repr offline;
     str_exn := str_exn offline |}.

(** A parsed body that serves every request of one session: a code, a
    token, and two articles without tags. *)
Definition session_data : value :=
  VDict [("code", VStr "abc"); ("access_token", VStr "T");
         ("list",
          VDict [("1", VDict [("resolved_title", VStr "X"); ("tags", VDict [])]);
                 ("2", VDict [("given_title", VStr "Y")])])].

(** * Facts about the string operations *)

Module StrFacts.
Import Str.
#[local] Arguments String.append !_ _ / : simpl nomatch.

Lemma split_nonempty sep s : split sep s <> [].
Proof.
  destruct s as [|c s]; simpl; [discriminate|].
  destruct (Ascii.eqb c sep); [discriminate|].
  destruct (split sep s); discriminate.
Qed.

(** Joining the pieces with the separator gives the string back. *)
Lemma join_split sep s : join (String sep EmptyString) (split sep s) = s.
Proof.
  induction s as [|c s IH]; simpl; [reflexivity|].
  destruct (Ascii.eqb_spec c sep) as [->|Hne].
  - pose proof (split_nonempty sep s) as Hn.
    destruct (split sep s) as [|p ps]; [contradiction|].
    simpl in *. now rewrite IH.
  - pose proof (split_nonempty sep s) as Hn.
    destruct (split sep s) as [|p ps]; [contradiction|].
    destruct ps as [|q qs]; simpl in *; now rewrite <- IH.
Qed.

(** One piece more than there are separators. *)
Lemma length_split sep s : length (split sep s) = S (count sep s).
Proof.
  induction s as [|c s IH]; simpl; [reflexivity|].
  destruct (Ascii.eqb c sep); simpl; [now rewrite IH|].
  pose proof (split_nonempty sep s) as Hn.
  destruct (split sep s) as [|p ps]; [contradiction|]. exact IH.
Qed.

Lemma lstrip_all_space w : all_space w = true -> lstrip w = EmptyString.
Proof.
  induction w as [|c w IH]; simpl; [reflexivity|].
  intros [Hc Hw]%andb_prop. rewrite Hc. auto.
Qed.

Lemma rstrip_all_space w : all_space w = true -> rstrip w = EmptyString.
Proof.
  induction w as [|c w IH]; simpl; [reflexivity|].
  intros [Hc Hw]%andb_prop. rewrite (IH Hw), Hc. reflexivity.
Qed.

Lemma rstrip_app_space s w :
  all_space w = true -> rstrip (s +:+ w) = rstrip s.
Proof.
  intros Hw. induction s as [|c s IH]; simpl.
  - now apply rstrip_all_space.
  - now rewrite IH.
Qed.

Lemma strip_app_space s w :
  all_space w = true -> strip (s +:+ w) = strip s.
Proof.
  intros Hw. unfold strip. induction s as [|c s IH]; simpl.
  - now rewrite lstrip_all_space.
  - destruct (isspace c); [exact IH|].
    change (String c (s +:+ w)) with (String c s +:+ w).
    now apply rstrip_app_space.
Qed.

(** What [rstrip] removes is a run of white space at the end. *)
Lemma rstrip_spec s : exists w, all_space w = true /\ s = rstrip s +:+ w.
Proof.
  induction s as [|c s (w & Hw & IH)]; simpl.
  - now exists EmptyString.
  - destruct (rstrip s) as [|b r] eqn:Hr.
    + simpl in IH. subst w.
      destruct (isspace c) eqn:Hc.
      * exists (String c s). simpl. now rewrite Hc, Hw.
      * now exists s.
    + exists w. split; [exact Hw|]. simpl in *. now rewrite <- IH.
Qed.

Lemma split_all_space sep w :
  isspace sep = false -> all_space w = true -> split sep w = [w].
Proof.
  intros Hsep. induction w as [|c w IH]; simpl; [reflexivity|].
  intros [Hc Hw]%andb_prop.
  destruct (Ascii.eqb_spec c sep) as [->|_]; [congruence|].
  now rewrite (IH Hw).
Qed.

(** White space added at the end lands in the last piece. *)
Lemma split_app_space sep s w :
  isspace sep = false -> all_space w = true ->
  split sep (s +:+ w) = on_last (fun p => p +:+ w) (split sep s).
Proof.
  intros Hsep Hw. induction s as [|c s IH]; simpl.
  - now apply split_all_space.
  - pose proof (split_nonempty sep s) as Hn. rewrite IH.
    destruct (split sep s) as [|p ps]; [contradiction|].
    destruct (Ascii.eqb c sep); [reflexivity|].
    destruct ps; reflexivity.
Qed.

Lemma map_on_last {A B} (g : A -> B) (f : A -> A) (l : list A) :
  (forall x, g (f x) = g x) -> map g (on_last f l) = map g l.
Proof.
  intros Hf. induction l as [|x [|y l] IH]; simpl in *; [reflexivity| |].
  - now rewrite Hf.
  - now rewrite IH.
Qed.

Lemma split_rstrip sep s :
  isspace sep = false ->
  map strip (split sep (rstrip s)) = map strip (split sep s).
Proof.
  intros Hsep. destruct (rstrip_spec s) as (w & Hw & Hs).
  rewrite Hs at 2. rewrite split_app_space by assumption.
  rewrite map_on_last; [reflexivity|].
  intros p. now apply strip_app_space.
Qed.

Lemma split_lstrip sep s :
  isspace sep = false ->
  map strip (split sep (lstrip s)) = map strip (split sep s).
Proof.
  intros Hsep. induction s as [|c s IH]; simpl; [reflexivity|].
  destruct (isspace c) eqn:Hc; [|reflexivity].
  destruct (Ascii.eqb_spec c sep) as [->|_]; [congruence|].
  rewrite IH. pose proof (split_nonempty sep s) as Hn.
  destruct (split sep s) as [|p ps]; [contradiction|].
  simpl. f_equal. unfold strip. simpl. now rewrite Hc.
Qed.

(** Trimming the whole string before splitting changes no trimmed piece. *)
Lemma split_strip sep s :
  isspace sep = false ->
  map strip (split sep (strip s)) = map strip (split sep s).
Proof.
  intros Hsep. unfold strip at 2.
  now rewrite split_rstrip, split_lstrip.
Qed.

(** What [lstrip] leaves does not start with white space. *)
Lemma lstrip_head s c r : lstrip s = String c r -> isspace c = false.
Proof.
  induction s as [|a s IH]; simpl; [discriminate|].
  destruct (isspace a) eqn:Ha; [exact IH|]. congruence.
Qed.

End StrFacts.

(** * Facts about the monad *)

Section MonadFacts.
Context {A B : Type}.

Lemma bind_Ok (m : M A) (k : A -> M B) s a s1 :
  m s = (Ok a, s1) -> bind m k s = k a s1.
Proof. unfold bind. now intros ->. Qed.

Lemma bind_Raise (m : M A) (k : A -> M B) s e s1 :
  m s = (Raise e, s1) -> bind m k s = (Raise e, s1).
Proof. unfold bind. now intros ->. Qed.

Lemma bind_inv_Ok (m : M A) (k : A -> M B) s b s2 :
  bind m k s = (Ok b, s2) ->
  exists a s1, m s = (Ok a, s1) /\ k a s1 = (Ok b, s2).
Proof.
  unfold bind. destruct (m s) as [[a|e] s1]; [eauto | discriminate].
Qed.

(** *** [TAG_LIST] is left alone *)

Lemma keeps_ret (a : A) : keeps_TAG_LIST (ret a).
Proof. now intros s. Qed.

Lemma keeps_raise e : keeps_TAG_LIST (@raise A e).
Proof. now intros s. Qed.

Lemma keeps_lift (r : result A) : keeps_TAG_LIST (lift r).
Proof. now intros s. Qed.

Lemma keeps_ask e (oracle : list event -> result A) : keeps_TAG_LIST (ask e oracle).
Proof. now intros s. Qed.

Lemma keeps_bind (m : M A) (k : A -> M B) :
  keeps_TAG_LIST m -> (forall a, keeps_TAG_LIST (k a)) -> keeps_TAG_LIST (bind m k).
Proof.
  intros Hm Hk s. unfold bind. specialize (Hm s).
  destruct (m s) as [[a|e] s1]; simpl in *; [|exact Hm].
  now rewrite Hk.
Qed.

Lemma keeps_try_except (body : M A) (handler : exn -> M A) :
  keeps_TAG_LIST body -> (forall e, keeps_TAG_LIST (handler e)) ->
  keeps_TAG_LIST (try_except body handler).
Proof.
  intros Hm Hk s. unfold try_except. specialize (Hm s).
  destruct (body s) as [[a|e] s1]; simpl in *; [exact Hm|].
  now rewrite Hk.
Qed.

(** *** The trace only grows *)

Lemma extends_ret P (a : A) : extends_trace P (ret a).
Proof. intros s. exists []. simpl. now rewrite app_nil_r. Qed.

Lemma extends_raise P e : extends_trace P (@raise A e).
Proof. intros s. exists []. simpl. now rewrite app_nil_r. Qed.

Lemma extends_lift P (r : result A) : extends_trace P (lift r).
Proof. intros s. exists []. simpl. now rewrite app_nil_r. Qed.

Lemma extends_ask (P : event -> Prop) e (oracle : list event -> result A) :
  P e -> extends_trace P (ask e oracle).
Proof. intros He s. exists [e]. simpl. auto. Qed.

Lemma extends_bind P (m : M A) (k : A -> M B) :
  extends_trace P m -> (forall a, extends_trace P (k a)) ->
  extends_trace P (bind m k).
Proof.
  intros Hm Hk s. unfold bind. destruct (Hm s) as (n1 & E1 & F1).
  destruct (m s) as [[a|e] s1]; simpl in *; [|eauto].
  destruct (Hk a s1) as (n2 & E2 & F2).
  exists (n1 ++ n2). rewrite E2, E1, app_assoc. split; [reflexivity|].
  now apply Forall_app.
Qed.

End MonadFacts.

Lemma keeps_emit e : keeps_TAG_LIST (emit e).
Proof. now intros s. Qed.

Lemma keeps_read : keeps_TAG_LIST read_TAG_LIST.
Proof. now intros s. Qed.

Lemma extends_emit (P : event -> Prop) e : P e -> extends_trace P (emit e).
Proof. intros He s. exists [e]. simpl. auto. Qed.

Create HintDb keeps.
#[global] Hint Resolve keeps_ret keeps_raise keeps_lift keeps_ask keeps_emit
  keeps_read : keeps.
Create HintDb extends.
#[global] Hint Resolve extends_ret extends_raise extends_lift : extends.

(** One step of a proof that a computation keeps [TAG_LIST]: split a bind
    or a [try], or go into the branches of a [match]. *)
Ltac keeps_step :=
  match goal with
  | |- keeps_TAG_LIST (bind _ _) => apply keeps_bind; [|intros ?]
  | |- keeps_TAG_LIST (try_except _ _) => apply keeps_try_except; [|intros ?]
  | |- keeps_TAG_LIST (match ?x with _ => _ end) => destruct x
  | |- keeps_TAG_LIST (let _ := _ in _) => cbv zeta
  | |- keeps_TAG_LIST _ => solve [auto with keeps]
  end.

Ltac extends_step :=
  match goal with
  | |- extends_trace _ (bind _ _) => apply extends_bind; [|intros ?]
  | |- extends_trace _ (match ?x with _ => _ end) => destruct x
  | |- extends_trace _ (let _ := _ in _) => cbv zeta
  | |- extends_trace _ (ask _ _) => apply extends_ask
  | |- extends_trace _ (emit _) => apply extends_emit
  | |- extends_trace _ _ => solve [auto with extends]
  end.

Section ScriptFacts.
Variable W : world.

Lemma keeps_raise_for_status r : keeps_TAG_LIST (raise_for_status r).
Proof. unfold raise_for_status. repeat keeps_step. Qed.

Lemma keeps_post url data : keeps_TAG_LIST (post W url data).
Proof.
  unfold post, requests_post_, response_json, print.
  repeat keeps_step; apply keeps_raise_for_status.
Qed.

Lemma keeps_request_code : keeps_TAG_LIST (request_code W).
Proof. unfold request_code. repeat keeps_step. apply keeps_post. Qed.

Lemma keeps_request_access_token code :
  keeps_TAG_LIST (request_access_token W code).
Proof. unfold request_access_token. repeat keeps_step. apply keeps_post. Qed.

Lemma keeps_request_authorization code :
  keeps_TAG_LIST (request_authorization W code).
Proof. unfold request_authorization. repeat keeps_step. Qed.

Lemma keeps_authenticate_pocket : keeps_TAG_LIST (authenticate_pocket W).
Proof.
  unfold authenticate_pocket.
  repeat keeps_step;
    auto using keeps_request_code, keeps_request_authorization,
               keeps_request_access_token.
Qed.

Lemma keeps_or_ a b :
  keeps_TAG_LIST a -> keeps_TAG_LIST b -> keeps_TAG_LIST (or_ a b).
Proof. intros Ha Hb. unfold or_. repeat keeps_step; assumption. Qed.

Lemma keeps_get_tag_suggestions article :
  keeps_TAG_LIST (get_tag_suggestions W article).
Proof.
  unfold get_tag_suggestions, title_of, url_of, print.
  repeat (keeps_step || apply keeps_or_).
Qed.

Lemma keeps_collect_untagged items articles :
  keeps_TAG_LIST (collect_untagged items articles).
Proof.
  revert articles. induction items as [|[article_id article] rest IH];
    intros articles; simpl; repeat keeps_step; apply IH.
Qed.

Lemma keeps_get_unread_articles token :
  keeps_TAG_LIST (get_unread_articles W token).
Proof.
  unfold get_unread_articles, requests_post_, response_json, print.
  repeat keeps_step; apply keeps_collect_untagged.
Qed.

Lemma keeps_add_tags_to_article token article_id tags :
  keeps_TAG_LIST (add_tags_to_article W token article_id tags).
Proof.
  unfold add_tags_to_article, requests_post_, response_json, print.
  repeat keeps_step; apply keeps_raise_for_status.
Qed.

Lemma keeps_process_article token entry :
  keeps_TAG_LIST (process_article W token entry).
Proof.
  unfold process_article, print. destruct entry as [article_id article].
  repeat keeps_step;
    auto using keeps_get_tag_suggestions, keeps_add_tags_to_article.
Qed.

Lemma keeps_for_each {A} (l : list A) body :
  (forall x, keeps_TAG_LIST (body x)) -> keeps_TAG_LIST (for_each l body).
Proof.
  intros Hb. induction l as [|x rest IH]; simpl; repeat keeps_step; auto.
Qed.

Lemma keeps_main : keeps_TAG_LIST (main W).
Proof.
  unfold main, print.
  repeat keeps_step;
    auto using keeps_authenticate_pocket, keeps_get_unread_articles,
               keeps_for_each, keeps_process_article.
Qed.

End ScriptFacts.

Section Suggestions.
Variable W : world.

(** The choices made before the model is called touch neither the trace
    nor [TAG_LIST]. *)
Lemma title_of_dict kvs s :
  exists title, title_of (VDict kvs) s = (Ok title, s).
Proof.
  unfold title_of, or_, bind, lift, ret. simpl.
  repeat case_match; eauto.
Qed.

Lemma url_of_dict kvs s :
  exists url, url_of (VDict kvs) s = (Ok url, s).
Proof.
  unfold url_of, or_, bind, lift, ret. simpl.
  repeat case_match; eauto.
Qed.

Lemma get_tag_suggestions_inv article s tags s' :
  get_tag_suggestions W article s = (Ok tags, s') ->
  tags = [] \/
  exists h req reply others,
    chat_completions_create W h req = Ok (Some reply :: others)
    /\ ChatCreate req ∈ trace s'
    /\ tags = filter (fun tag => tag ∈ TAG_LIST_obj s)
                     (map Str.strip (Str.split "," (Str.strip reply))).
Proof.
  unfold get_tag_suggestions.
  intros (u & s1 & H1 & H)%bind_inv_Ok.
  assert (s1 = s) as -> by (unfold lift in H1; congruence). clear H1.
  destruct article; try (unfold title_of, or_, bind, lift in H; simpl in H; discriminate).
  destruct (title_of_dict kvs s) as [title Ht].
  destruct (url_of_dict kvs s) as [url Hu].
  rewrite (bind_Ok _ _ _ _ _ Ht) in H.
  rewrite (bind_Ok _ _ _ _ _ Hu) in H.
  unfold bind at 1 in H. simpl in H.
  unfold bind at 1 in H. simpl in H.
  unfold try_except, bind, print, emit, ask, lift, ret, read_TAG_LIST in H.
  simpl in H.
  match type of H with
  | context [chat_completions_create W ?h ?r] =>
      destruct (chat_completions_create W h r) as [[|[reply|] others]|e] eqn:Hc
  end; simpl in H; inversion H; subst; auto.
  right. do 2 eexists. exists reply, others.
  split; [exact Hc|]. split; [|reflexivity].
  simpl. rewrite !elem_of_app, !list_elem_of_singleton. auto.
Qed.

(** With a client and a [dict] for the article the model is asked, with
    the prompt built from the chosen title. *)
Lemma get_tag_suggestions_asks kvs s title :
  Groq W (GROQ_API_KEY W) = Ok tt ->
  title_of (VDict kvs) s = (Ok title, s) ->
  exists url excerpt,
    ChatCreate (chat_request_of
                  (prompt_of W title url excerpt (TAG_LIST_obj s)))
      ∈ trace (get_tag_suggestions W (VDict kvs) s).2.
Proof.
  intros HG Ht. destruct (url_of_dict kvs s) as [url Hu].
  exists url, (default (VStr "") (Py.dict_lookup "excerpt" kvs)).
  unfold get_tag_suggestions.
  rewrite (bind_Ok _ _ s tt s) by (unfold lift; now rewrite HG).
  rewrite (bind_Ok _ _ _ _ _ Ht), (bind_Ok _ _ _ _ _ Hu).
  unfold bind at 1. simpl. unfold bind at 1. simpl.
  unfold try_except, bind, print, emit, ask, lift, ret, read_TAG_LIST. simpl.
  match goal with
  | |- context [chat_completions_create W ?h ?r] =>
      destruct (chat_completions_create W h r) as [[|[reply|] others]|e]
  end; simpl; rewrite !elem_of_app, !list_elem_of_singleton; auto.
Qed.

(** When the model answers [reply], the valid pieces of [reply] come
    back. *)
Lemma get_tag_suggestions_reply kvs s reply others :
  Groq W (GROQ_API_KEY W) = Ok tt ->
  (forall h req, chat_completions_create W h req = Ok (Some reply :: others)) ->
  exists s',
    get_tag_suggestions W (VDict kvs) s =
      (Ok (filter (fun tag => tag ∈ TAG_LIST_obj s)
                  (map Str.strip (Str.split "," (Str.strip reply)))), s').
Proof.
  intros HG Hc. destruct (title_of_dict kvs s) as [title Ht].
  destruct (url_of_dict kvs s) as [url Hu].
  unfold get_tag_suggestions.
  rewrite (bind_Ok _ _ s tt s) by (unfold lift; now rewrite HG).
  rewrite (bind_Ok _ _ _ _ _ Ht), (bind_Ok _ _ _ _ _ Hu).
  unfold bind at 1. simpl. unfold bind at 1. simpl.
  unfold try_except, bind, print, emit, ask, lift, ret, read_TAG_LIST. simpl.
  rewrite Hc. simpl. eauto.
Qed.

(** The title is chosen by [resolved or given or 'No title']. *)
Lemma title_of_choice kvs s title :
  title_of (VDict kvs) s = (Ok title, s) ->
  let resolved := default VNone (Py.dict_lookup "resolved_title" kvs) in
  let given := default VNone (Py.dict_lookup "given_title" kvs) in
  title = if Py.truthy resolved then resolved
          else if Py.truthy given then given else VStr "No title".
Proof.
  unfold title_of, or_, bind, lift, ret. simpl.
  repeat case_match; congruence.
Qed.

End Suggestions.

Lemma lacks_falsy kvs key :
  lacks kvs key -> Py.truthy (default VNone (Py.dict_lookup key kvs)) = false.
Proof. unfold lacks. now destruct (Py.dict_lookup key kvs). Qed.

Lemma lacks_absent kvs key : Py.dict_lookup key kvs = None -> lacks kvs key.
Proof. unfold lacks. now intros ->. Qed.

(** A collection is empty for Python exactly when it has no entry. *)
Lemma truthy_dict kvs : Py.truthy (VDict kvs) = false <-> kvs = [].
Proof. destruct kvs; simpl; split; congruence. Qed.

Lemma truthy_list xs : Py.truthy (VList xs) = false <-> xs = [].
Proof. destruct xs; simpl; split; congruence. Qed.

(** * The specification, claim by claim *)

(** C1.  Whatever the article and whatever the model replies, the list that
    [get_tag_suggestions] returns holds only entries of [TAG_LIST]; when the
    model replies with the text [reply], the list is exactly the pieces of
    [reply] between commas, each trimmed of white space, that occur in
    [TAG_LIST], in the order of the reply (that the code trims the whole
    reply first makes no difference); the reply "dev, made-up-tag, tech"
    gives ["dev"; "tech"]. *)
Theorem get_tag_suggestions_in_vocabulary (W : world) (article : value) (s : store) :
  TAG_LIST_obj s = TAG_LIST ->
  (forall tags s',
      get_tag_suggestions W article s = (Ok tags, s') ->
      forall tag, tag ∈ tags -> tag ∈ TAG_LIST)
  /\ (forall kvs reply others,
        article = VDict kvs ->
        Groq W (GROQ_API_KEY W) = Ok tt ->
        (forall h req, chat_completions_create W h req = Ok (Some reply :: others)) ->
        let pieces := map Str.strip (Str.split "," reply) in
        let valid := filter (fun tag => tag ∈ TAG_LIST) pieces in
        (exists s', get_tag_suggestions W article s = (Ok valid, s'))
        /\ valid `sublist_of` pieces
        /\ (reply = "dev, made-up-tag, tech" -> valid = ["dev"; "tech"])).
Proof.
  intros Hs. split.
  - intros tags s' [->|(h & req & reply & others & _ & _ & ->)]%get_tag_suggestions_inv tag.
    + now intros ?%elem_of_nil.
    + rewrite Hs. now intros [? _]%list_elem_of_filter.
  - intros kvs reply others -> HG Hc pieces valid. repeat split.
    + destruct (get_tag_suggestions_reply W kvs s reply others HG Hc) as [s' H].
      exists s'. rewrite H, Hs, StrFacts.split_strip by reflexivity. reflexivity.
    + apply sublist_filter.
    + intros ->. reflexivity.
Qed.

Lemma get_tag_suggestions_in_vocabulary_witness :
  (exists s', get_tag_suggestions (answering "dev, made-up-tag, tech")
                (VDict [("resolved_title", VStr "Foo")]) initial_store
              = (Ok ["dev"; "tech"], s'))
  /\ forall tags s',
      get_tag_suggestions (answering "  sports,  ,Dev,tv  ")
        (VDict []) initial_store = (Ok tags, s') ->
      forall tag, tag ∈ tags -> tag ∈ TAG_LIST.
Proof.
  split.
  - destruct (get_tag_suggestions_in_vocabulary
                (answering "dev, made-up-tag, tech")
                (VDict [("resolved_title", VStr "Foo")]) initial_store
                eq_refl) as [_ H].
    destruct (H [("resolved_title", VStr "Foo")] "dev, made-up-tag, tech" []
                eq_refl eq_refl (fun _ _ => eq_refl)) as ([s' Hrun] & _ & Hex).
    exists s'. rewrite Hrun. now rewrite (Hex eq_refl).
  - exact (proj1 (get_tag_suggestions_in_vocabulary
                    (answering "  sports,  ,Dev,tv  ") (VDict [])
                    initial_store eq_refl)).
Defined.

(** C7.  For an article record (a [dict]) the title put into the prompt that
    is sent to the model is the resolved title when the record holds one
    (a value under [resolved_title] that is not empty); when it holds none
    (no such key, or an empty value) it is the given title, if the record
    holds one; with neither it is the text "No title".  So resolved title
    "Foo" and given title "Bar" give a prompt with "Foo", and given title
    "Bar" alone gives a prompt with "Bar". *)
Theorem prompt_title_prefers_resolved (W : world) (kvs : list (string * value))
    (s : store) :
  Groq W (GROQ_API_KEY W) = Ok tt ->
  exists title url excerpt,
    ChatCreate (chat_request_of (prompt_of W title url excerpt (TAG_LIST_obj s)))
      ∈ trace (get_tag_suggestions W (VDict kvs) s).2
    /\ (exists before after,
          prompt_of W title url excerpt (TAG_LIST_obj s)
          = before +:+ "    Title: " +:+ str W title +:+ Str.nl +:+ after)
    /\ (forall resolved, holds kvs "resolved_title" resolved -> title = resolved)
    /\ (forall given,
          lacks kvs "resolved_title" -> holds kvs "given_title" given ->
          title = given)
    /\ (lacks kvs "resolved_title" -> lacks kvs "given_title" ->
        title = VStr "No title")
    /\ (kvs = [("resolved_title", VStr "Foo"); ("given_title", VStr "Bar")] ->
        str W title = "Foo")
    /\ (kvs = [("given_title", VStr "Bar")] -> str W title = "Bar").
Proof.
  intros HG. destruct (title_of_dict kvs s) as [title Ht].
  destruct (get_tag_suggestions_asks W kvs s title HG Ht) as (url & excerpt & Hask).
  pose proof (title_of_choice kvs s title Ht) as Hchoice. simpl in Hchoice.
  exists title, url, excerpt. split; [exact Hask|]. split; [|repeat split].
  - exists (Str.nl +:+ "    I have an article with the following details:"
            +:+ Str.nl +:+ "    " +:+ Str.nl).
    eexists. reflexivity.
  - intros resolved [Hr Htr]. rewrite Hr in Hchoice. simpl in Hchoice.
    now rewrite Htr in Hchoice.
  - intros given Hnr%lacks_falsy [Hg Htg]. rewrite Hnr, Hg in Hchoice.
    simpl in Hchoice. now rewrite Htg in Hchoice.
  - intros Hnr%lacks_falsy Hng%lacks_falsy. now rewrite Hnr, Hng in Hchoice.
  - intros ->. now rewrite Hchoice.
  - intros ->. now rewrite Hchoice.
Qed.

Lemma prompt_title_prefers_resolved_witness :
  exists title url excerpt,
    ChatCreate (chat_request_of (prompt_of offline title url excerpt TAG_LIST))
      ∈ trace (get_tag_suggestions offline
                 (VDict [("resolved_title", VStr "Foo"); ("given_title", VStr "Bar")])
                 initial_store).2
    /\ title = VStr "Foo".
Proof.
  destruct (prompt_title_prefers_resolved offline
              [("resolved_title", VStr "Foo"); ("given_title", VStr "Bar")]
              initial_store eq_refl)
    as (title & url & excerpt & Hask & _ & Hres & _).
  exists title, url, excerpt. split; [exact Hask|].
  apply Hres. split; reflexivity.
Defined.

(** C8, as the code has it.  The list [get_tag_suggestions] returns is
    never longer than the number of comma-separated pieces of the model's
    reply, one more than the number of commas in it; it is empty when the
    request fails.  No bound of five is enforced: the prompt only asks the
    model for one to five tags. *)
Theorem get_tag_suggestions_length (W : world) (article : value) (s : store)
    (tags : list string) (s' : store) :
  get_tag_suggestions W article s = (Ok tags, s') ->
  tags = [] \/
  exists h req reply others,
    chat_completions_create W h req = Ok (Some reply :: others)
    /\ ChatCreate req ∈ trace s'
    /\ (length tags <= S (Str.count "," reply))%nat.
Proof.
  intros [->|(h & req & reply & others & Hc & Hin & ->)]%get_tag_suggestions_inv;
    [now left|right].
  exists h, req, reply, others. split; [exact Hc|]. split; [exact Hin|].
  rewrite StrFacts.split_strip by reflexivity.
  etransitivity; [apply length_filter|].
  now rewrite length_map, StrFacts.length_split.
Qed.

Lemma get_tag_suggestions_length_witness :
  exists tags s',
    get_tag_suggestions (answering "dev, made-up-tag, tech") (VDict [])
      initial_store = (Ok tags, s')
    /\ (tags = [] \/
        exists h req reply others,
          chat_completions_create (answering "dev, made-up-tag, tech") h req
          = Ok (Some reply :: others)
          /\ ChatCreate req ∈ trace s'
          /\ (length tags <= S (Str.count "," reply))%nat).
Proof.
  exists ["dev"; "tech"],
    (get_tag_suggestions (answering "dev, made-up-tag, tech") (VDict [])
       initial_store).2.
  split; [reflexivity|].
  apply (get_tag_suggestions_length (answering "dev, made-up-tag, tech")
           (VDict []) initial_store). reflexivity.
Defined.

(** C8, as stated, fails: a reply naming six tags of the vocabulary gives a
    list of six tags. *)
Lemma get_tag_suggestions_six_tags :
  exists tags s',
    get_tag_suggestions (answering "dev, tech, news, music, misc, work")
      (VDict [("resolved_title", VStr "Foo")]) initial_store = (Ok tags, s')
    /\ ~ (length tags <= 5)%nat.
Proof.
  exists ["dev"; "tech"; "news"; "music"; "misc"; "work"],
    (get_tag_suggestions (answering "dev, tech, news, music, misc, work")
       (VDict [("resolved_title", VStr "Foo")]) initial_store).2.
  split; [reflexivity|]. simpl. lia.
Qed.

(** C4.  With an empty list of tags [add_tags_to_article] returns [False]
    and leaves the store as it was: nothing is added to the trace, so no
    request is made (and nothing is printed). *)
Theorem add_tags_to_article_no_tags (W : world) (token : value)
    (article_id : string) (s : store) :
  add_tags_to_article W token article_id [] s = (Ok false, s).
Proof. reflexivity. Qed.

(** C9, as the code has it.  [TAG_LIST] is a list of 38 string literals
    without repetition; the module body puts it into the store, and no
    function of the script changes the list object: the store after
    [main], or after any of the operations, holds the list it held
    before. *)
Theorem TAG_LIST_fixed (W : world) :
  length TAG_LIST = 38%nat
  /\ NoDup TAG_LIST
  /\ TAG_LIST_obj initial_store = TAG_LIST
  /\ keeps_TAG_LIST (main W)
  /\ keeps_TAG_LIST (authenticate_pocket W)
  /\ (forall token, keeps_TAG_LIST (get_unread_articles W token))
  /\ (forall article, keeps_TAG_LIST (get_tag_suggestions W article))
  /\ (forall token article_id tags,
        keeps_TAG_LIST (add_tags_to_article W token article_id tags))
  /\ TAG_LIST_obj (main W initial_store).2 = TAG_LIST.
Proof.
  repeat split.
  - refine (bool_decide_unpack _ _). vm_compute. exact I.
  - apply keeps_main.
  - apply keeps_authenticate_pocket.
  - apply keeps_get_unread_articles.
  - apply keeps_get_tag_suggestions.
  - apply keeps_add_tags_to_article.
  - apply (keeps_main W initial_store).
Qed.

(** C9, as stated, fails: the list has 38 entries, not 37. *)
Lemma TAG_LIST_not_37 : length TAG_LIST <> 37%nat.
Proof. discriminate. Qed.

Section Fetch.
Variable W : world.

Lemma collect_untagged_inv items : forall articles s l s',
  collect_untagged items articles s = (Ok l, s') ->
  s' = s /\ l = articles ++ filter (fun p => untagged p.2) items.
Proof.
  induction items as [|[article_id article] rest IH]; intros articles s l s'; simpl.
  - unfold ret. intros [= <- <-]. now rewrite app_nil_r.
  - destruct article; try (unfold bind, lift; simpl; discriminate).
    unfold bind at 1, lift. simpl.
    destruct (Py.dict_lookup "tags" kvs) as [tags|] eqn:Htags; simpl.
    + destruct (Py.truthy tags) eqn:Ht; simpl; intros [-> ->]%IH; split; auto.
      * rewrite filter_cons_False; [reflexivity|].
        simpl. unfold lacks. rewrite Htags. congruence.
      * rewrite filter_cons_True by (simpl; unfold lacks; now rewrite Htags).
        now rewrite <- app_assoc.
    + intros [-> ->]%IH. split; auto.
      rewrite filter_cons_True by (simpl; unfold lacks; now rewrite Htags).
      now rewrite <- app_assoc.
Qed.

Lemma collect_untagged_dicts items : forall articles s,
  Forall (fun p => is_dict p.2) items ->
  collect_untagged items articles s
  = (Ok (articles ++ filter (fun p => untagged p.2) items), s).
Proof.
  induction items as [|[article_id article] rest IH]; intros articles s Hd; simpl.
  - unfold ret. now rewrite app_nil_r.
  - apply Forall_cons in Hd as [Ha Hd]. destruct article; try contradiction.
    unfold bind at 1, lift. simpl.
    destruct (Py.dict_lookup "tags" kvs) as [tags|] eqn:Htags; simpl.
    + destruct (Py.truthy tags) eqn:Ht; simpl; rewrite IH by assumption.
      * rewrite filter_cons_False; [reflexivity|].
        simpl. unfold lacks. rewrite Htags. congruence.
      * rewrite filter_cons_True by (simpl; unfold lacks; now rewrite Htags).
        now rewrite <- app_assoc.
    + rewrite IH by assumption.
      rewrite filter_cons_True by (simpl; unfold lacks; now rewrite Htags).
      now rewrite <- app_assoc.
Qed.

(** The run of [get_unread_articles] once the response has come and its
    body has been parsed. *)
Lemma get_unread_articles_parsed token s resp data :
  fetch_answer W token s = Ok resp ->
  loads W (text resp) = Ok data ->
  exists s1,
    trace s1 = trace s ++ [Print "Fetching unread articles from Pocket...";
                           RequestsPost "https://getpocket.com/v3/get"
                             (get_payload W token) []]
    /\ get_unread_articles W token s =
       (has_list <- lift (Py.contains "list" data) ;;
        articles <-
          (if has_list : bool then
             lst <- lift (Py.getitem data "list") ;;
             items <- lift (Py.items lst) ;;
             collect_untagged items []
           else ret []) ;;
        print ("Found " +:+ str W (VInt (Z.of_nat (length articles)))
               +:+ " unread articles without tags." +:+ Str.nl) ;;
        ret articles) s1.
Proof.
  unfold fetch_answer. intros Ha Hl. eexists. split; [|
    unfold get_unread_articles, requests_post_, response_json, print;
    unfold bind at 1, emit; simpl;
    unfold bind at 1, ask; simpl; rewrite Ha;
    unfold bind at 1, lift; simpl; rewrite Hl; reflexivity].
  simpl. now rewrite <- app_assoc.
Qed.

Lemma get_unread_articles_inv token s articles s' :
  get_unread_articles W token s = (Ok articles, s') ->
  exists resp data,
    fetch_answer W token s = Ok resp
    /\ loads W (text resp) = Ok data
    /\ (articles = [] \/
        exists entries,
          Py.getitem data "list" = Ok (VDict entries)
          /\ articles = filter (fun p => untagged p.2) entries).
Proof.
  intros H. destruct (fetch_answer W token s) as [resp|e] eqn:Ha.
  2:{ unfold get_unread_articles, requests_post_, print in H.
      unfold bind at 1, emit in H. simpl in H.
      unfold bind at 1, ask in H. simpl in H.
      unfold fetch_answer in Ha. rewrite Ha in H. discriminate. }
  destruct (loads W (text resp)) as [data|e] eqn:Hl.
  2:{ unfold get_unread_articles, requests_post_, response_json, print in H.
      unfold bind at 1, emit in H. simpl in H.
      unfold bind at 1, ask in H. simpl in H.
      unfold fetch_answer in Ha. rewrite Ha in H.
      unfold bind at 1, lift in H. simpl in H. rewrite Hl in H. discriminate. }
  exists resp, data. split; [reflexivity|]. split; [exact Hl|].
  destruct (get_unread_articles_parsed token s resp data Ha Hl) as (s1 & _ & Hrun).
  rewrite Hrun in H. clear Hrun.
  apply bind_inv_Ok in H as (has_list & s2 & H1 & H).
  apply bind_inv_Ok in H as (found & s3 & H2 & H).
  unfold bind, print, emit, ret in H. simpl in H. injection H as <- _.
  destruct has_list.
  - right. apply bind_inv_Ok in H2 as (lst & s4 & H3 & H2).
    apply bind_inv_Ok in H2 as (items & s5 & H4 & H2).
    apply collect_untagged_inv in H2 as [_ ->].
    unfold lift in H3, H4. injection H3 as H3 _. injection H4 as H4 _.
    exists items. split; [|reflexivity].
    destruct lst; try discriminate. simpl in H4. injection H4 as ->. exact H3.
  - left. unfold ret in H2. congruence.
Qed.

Lemma get_unread_articles_no_list token s resp d :
  fetch_answer W token s = Ok resp ->
  loads W (text resp) = Ok (VDict d) ->
  Py.dict_lookup "list" d = None ->
  exists s', get_unread_articles W token s = (Ok [], s').
Proof.
  intros Ha Hl Hn.
  destruct (get_unread_articles_parsed token s resp _ Ha Hl) as (s1 & _ & ->).
  unfold bind at 1, lift. simpl. rewrite Hn. simpl.
  unfold bind, ret, print, emit. simpl. eauto.
Qed.

Lemma get_unread_articles_list token s resp d entries :
  fetch_answer W token s = Ok resp ->
  loads W (text resp) = Ok (VDict d) ->
  Py.dict_lookup "list" d = Some (VDict entries) ->
  Forall (fun p => is_dict p.2) entries ->
  exists s',
    get_unread_articles W token s
    = (Ok (filter (fun p => untagged p.2) entries), s').
Proof.
  intros Ha Hl Hn Hd.
  destruct (get_unread_articles_parsed token s resp _ Ha Hl) as (s1 & _ & ->).
  unfold bind at 1, lift. simpl. rewrite Hn. simpl.
  unfold bind at 1. unfold bind at 1. simpl.
  unfold bind at 1. simpl. rewrite collect_untagged_dicts by assumption.
  unfold bind, ret, print, emit. simpl. eauto.
Qed.

End Fetch.

(** C2.  Every pair that [get_unread_articles] returns is an entry of the
    ["list"] mapping of the response whose record has no ["tags"] entry or
    an empty one; an entry whose tag collection is not empty is never
    returned.  When the response is a mapping whose ["list"] maps
    identifiers to records, the function returns exactly those entries, and
    for the response of the scenario it returns the one pair of identifier
    "1". *)
Theorem get_unread_articles_untagged_only (W : world) (token : value) (s : store) :
  (forall articles s',
      get_unread_articles W token s = (Ok articles, s') ->
      forall article_id article,
        (article_id, article) ∈ articles ->
        untagged article
        /\ (forall kvs tag rest,
              article = VDict kvs ->
              Py.dict_lookup "tags" kvs <> Some (VDict (tag :: rest)))
        /\ exists resp data entries,
            fetch_answer W token s = Ok resp
            /\ loads W (text resp) = Ok data
            /\ Py.getitem data "list" = Ok (VDict entries)
            /\ (article_id, article) ∈ entries)
  /\ (forall resp d entries,
        fetch_answer W token s = Ok resp ->
        loads W (text resp) = Ok (VDict d) ->
        Py.dict_lookup "list" d = Some (VDict entries) ->
        Forall (fun p => is_dict p.2) entries ->
        exists s',
          get_unread_articles W token s
          = (Ok (filter (fun p => untagged p.2) entries), s'))
  /\ (forall resp,
        fetch_answer W token s = Ok resp ->
        loads W (text resp) = Ok scenario_data ->
        exists s',
          get_unread_articles W token s
          = (Ok [("1", VDict [("resolved_title", VStr "X"); ("tags", VDict [])])],
             s')).
Proof.
  split; [|split].
  - intros articles s' (resp & data & Ha & Hl & Hcases)%get_unread_articles_inv
      article_id article Hin.
    destruct Hcases as [->|(entries & Hg & ->)]; [now apply elem_of_nil in Hin|].
    apply list_elem_of_filter in Hin as [Hu Hin]. simpl in Hu.
    split; [exact Hu|]. split; [|eauto 10].
    intros kvs tag rest -> Htags. simpl in Hu. unfold lacks in Hu.
    rewrite Htags in Hu. discriminate.
  - intros resp d entries. apply get_unread_articles_list.
  - intros resp Ha Hl.
    apply (get_unread_articles_list W token s resp _ _ Ha Hl eq_refl).
    repeat constructor.
Qed.

Lemma get_unread_articles_untagged_only_witness :
  exists s',
    get_unread_articles (serving (http 200 [] scenario_text) (Ok scenario_data))
      (VStr "token") initial_store
    = (Ok [("1", VDict [("resolved_title", VStr "X"); ("tags", VDict [])])], s').
Proof.
  exact (proj2 (proj2 (get_unread_articles_untagged_only
                         (serving (http 200 [] scenario_text) (Ok scenario_data))
                         (VStr "token") initial_store))
           (http 200 [] scenario_text) eq_refl eq_refl).
Defined.

Section Send.
Variable W : world.

Lemma raise_for_status_ok r s :
  ~ error_status r -> raise_for_status r s = (Ok tt, s).
Proof.
  unfold raise_for_status, error_status. intros H.
  destruct (400 <=? status_code r) eqn:H1, (status_code r <? 600) eqn:H2;
    try reflexivity. lia.
Qed.

Lemma raise_for_status_error r s :
  error_status r -> raise_for_status r s = (Raise (HTTPError (status_code r)), s).
Proof.
  unfold raise_for_status, error_status. intros H.
  destruct (400 <=? status_code r) eqn:H1, (status_code r <? 600) eqn:H2;
    try reflexivity; lia.
Qed.

Lemma error_status_dec r : {error_status r} + {~ error_status r}.
Proof. unfold error_status. destruct (decide (400 <= status_code r < 600)); auto. Qed.

(** The result of [add_tags_to_article] for a list of tags that is not
    empty, by what the service answers. *)
Lemma add_tags_to_article_result token article_id tags s :
  tags <> [] ->
  exists s',
    add_tags_to_article W token article_id tags s =
    (Ok match send_answer W token article_id tags s with
        | Ok resp =>
            if bool_decide (error_status resp) then false
            else match loads W (text resp) with
                 | Ok (VDict d) =>
                     Py.eq_1 (default (VInt 0) (Py.dict_lookup "status" d))
                 | _ => false
                 end
        | Raise _ => false
        end, s').
Proof.
  intros Hne. destruct tags as [|tag rest]; [contradiction|].
  unfold add_tags_to_article, requests_post_, response_json, print, try_except.
  unfold bind at 1, emit. simpl.
  unfold bind at 1, ask. simpl.
  unfold send_answer. simpl.
  match goal with
  | |- context [requests_post W ?h ?u ?p ?hd] =>
      destruct (requests_post W h u p hd) as [resp|e]
  end; [|unfold bind, emit, ret; simpl; eauto].
  unfold bind at 1.
  destruct (error_status_dec resp) as [He|He].
  - rewrite raise_for_status_error, bool_decide_eq_true_2 by assumption.
    unfold bind, emit, ret; simpl; eauto.
  - rewrite raise_for_status_ok, bool_decide_eq_false_2 by assumption.
    unfold bind at 1, lift.
    destruct (loads W (text resp)) as [data|e];
      [|unfold bind, emit, ret; simpl; eauto].
    destruct data; unfold bind, emit, ret; simpl; eauto.
Qed.

End Send.

(** C3.  With a list of tags that is not empty [add_tags_to_article] never
    raises: it returns [True] or [False].  It returns [True] exactly when
    the call goes through without an exception (the request is answered,
    the status is not 4xx or 5xx, the body parses to a mapping) and the
    ["status"] entry of the parsed body equals 1; so [{"status": 1}] gives
    [True], [{"status": 0}] and a body without ["status"] give [False], and
    every exception raised on the way is caught and gives [False]. *)
Theorem add_tags_to_article_status (W : world) (token : value)
    (article_id : string) (tags : list string) (s : store) :
  tags <> [] ->
  exists success s',
    add_tags_to_article W token article_id tags s = (Ok success, s')
    /\ (success = true <->
        exists resp d status,
          send_answer W token article_id tags s = Ok resp
          /\ ~ error_status resp
          /\ loads W (text resp) = Ok (VDict d)
          /\ Py.dict_lookup "status" d = Some status
          /\ Py.eq_1 status = true)
    /\ (forall resp d,
          send_answer W token article_id tags s = Ok resp ->
          ~ error_status resp ->
          loads W (text resp) = Ok (VDict d) ->
          (Py.dict_lookup "status" d = Some (VInt 1) -> success = true)
          /\ (Py.dict_lookup "status" d = Some (VInt 0) -> success = false)
          /\ (Py.dict_lookup "status" d = None -> success = false))
    /\ (forall e, send_answer W token article_id tags s = Raise e -> success = false)
    /\ (forall resp,
          send_answer W token article_id tags s = Ok resp ->
          error_status resp -> success = false)
    /\ (forall resp e,
          send_answer W token article_id tags s = Ok resp ->
          loads W (text resp) = Raise e -> success = false).
Proof.
  intros Hne.
  destruct (add_tags_to_article_result W token article_id tags s Hne) as [s' Hrun].
  eexists _, s'. split; [exact Hrun|]. clear Hrun.
  destruct (send_answer W token article_id tags s) as [resp|e0].
  2:{ repeat split; try discriminate.
      intros (resp & d & status & [=] & _). }
  destruct (error_status_dec resp) as [He|He].
  { rewrite bool_decide_eq_true_2 by assumption.
    split; [|split; [|repeat split]].
    - split; [discriminate|]. intros (r & d & st & [= <-] & Hn & _). contradiction.
    - intros r d [= <-]. contradiction. }
  rewrite bool_decide_eq_false_2 by assumption.
  split; [|split; [|repeat split]].
  - split.
    + destruct (loads W (text resp)) as [[]|] eqn:Hl; try discriminate.
      destruct (Py.dict_lookup "status" kvs) as [status|] eqn:Hst; simpl;
        [|discriminate].
      intros Heq. exists resp, kvs, status. auto.
    + intros (r & d & st & [= <-] & _ & -> & -> & Heq). exact Heq.
  - intros r d [= <-] _ ->. repeat split; now intros ->.
  - discriminate.
  - intros r [= <-]. contradiction.
  - intros r e [= <-] ->. reflexivity.
Qed.

Lemma add_tags_to_article_status_witness :
  exists s',
    add_tags_to_article
      (serving (http 200 [] status_1_text) (Ok (VDict [("status", VInt 1)])))
      (VStr "token") "1" ["dev"; "tech"] initial_store = (Ok true, s').
Proof.
  destruct (add_tags_to_article_status
              (serving (http 200 [] status_1_text) (Ok (VDict [("status", VInt 1)])))
              (VStr "token") "1" ["dev"; "tech"] initial_store)
    as (success & s' & Hrun & _ & Hex & _); [discriminate|].
  exists s'. rewrite Hrun. f_equal. f_equal.
  refine (proj1 (Hex (http 200 [] status_1_text) [("status", VInt 1)]
                   eq_refl _ eq_refl) eq_refl).
  unfold error_status. simpl. lia.
Defined.

Section Post.
Variable W : world.




(** A response that is not flagged: the empty mapping for a blank body,
    the parsed body otherwise, whatever the status. *)
Lemma post_unflagged url data s resp :
  post_answer W url data s = Ok resp ->
  ~ flagged resp ->
  exists s',
    post W url data s =
    (if Str.nonempty (Str.strip (text resp)) then loads W (text resp)
     else Ok (VDict []), s').
Proof.
  unfold post_answer. intros Ha Hf.
  unfold post, requests_post_, response_json, print.
  unfold bind at 1, ask. simpl. rewrite Ha.
  unfold bind at 1, emit. simpl. unfold bind at 1. simpl.
  destruct (headers_get "X-Error" (headers resp)) as [[|c err]|] eqn:Hh.
  - destruct (Str.nonempty _); unfold lift, ret; eauto.
  - exfalso. apply Hf. exists (String c err). now split.
  - destruct (Str.nonempty _); unfold lift, ret; eauto.
Qed.





End Post.

(** C5: the failing input.  The service answers with status 200, the header
    [X-Error: Bad request] and the body [{}].  The header is there, the
    error is logged, and [post] does not fail: [raise_for_status] finds no
    HTTP error to raise, the function ends without a [return] and its
    caller gets [None]. *)
Theorem post_flagged_status_200 (url : string) (data : value) :
  let resp := http 200 [("X-Error", "Bad request")] "{}" in
  let W := serving resp (Ok (VDict [])) in
  flagged resp
  /\ post W url data initial_store
     = (Ok VNone,
        {| TAG_LIST_obj := TAG_LIST;
           trace := [RequestsPost url data
                       [("Content-Type", "application/json");
                        ("X-Accept", "application/json")];
                     Print "Status code: 200";
                     Print "Response text: {}";
                     LoggerError "200, Bad request"] |}).
Proof.
  split; [|reflexivity].
  exists "Bad request". split; [reflexivity|discriminate].
Qed.




(** * Further properties of the script *)

(** ** Counting events *)

Lemma count_events_app p l1 l2 :
  count_events p (l1 ++ l2) = (count_events p l1 + count_events p l2)%nat.
Proof. induction l1 as [|e l1 IH]; simpl; [reflexivity|]. rewrite IH. lia. Qed.

Lemma count_events_none p l :
  Forall (fun e => p e = false) l -> count_events p l = 0%nat.
Proof. induction 1 as [|e l He Hl IH]; simpl; [reflexivity|]. now rewrite He, IH. Qed.

(** ** [post] *)

Section PostRuns.
Variable W : world.

(** The run of [post], by what the service answers. *)
Lemma post_run url data s :
  post W url data s =
  match post_answer W url data s with
  | Raise e => (Raise e, after s [RequestsPost url data json_headers])
  | Ok resp =>
      let seen := [RequestsPost url data json_headers;
                   Print ("Status code: " +:+ str W (VInt (status_code resp)));
                   Print ("Response text: " +:+ text resp)] in
      match headers_get "X-Error" (headers resp) with
      | Some (String c err) =>
          let logged :=
            seen ++ [LoggerError (str W (VInt (status_code resp)) +:+ ", "
                                  +:+ String c err)] in
          if bool_decide (error_status resp)
          then (Raise (HTTPError (status_code resp)), after s logged)
          else (Ok VNone, after s logged)
      | _ =>
          (if Str.nonempty (Str.strip (text resp)) then loads W (text resp)
           else Ok (VDict []), after s seen)
      end
  end.
Proof.
  unfold post, requests_post_, response_json, print, post_answer, json_headers.
  unfold bind at 1, ask. simpl.
  destruct (requests_post W (trace s) url data _) as [resp|e]; [|reflexivity].
  unfold bind at 1, emit. simpl. unfold bind at 1. simpl.
  unfold after. simpl. rewrite <- !app_assoc. simpl.
  destruct (headers_get "X-Error" (headers resp)) as [[|c err]|].
  - destruct (Str.nonempty _); reflexivity.
  - unfold bind at 1. simpl. unfold bind at 1.
    destruct (error_status_dec resp) as [He|He].
    + rewrite raise_for_status_error, bool_decide_eq_true_2 by assumption.
      now rewrite <- !app_assoc.
    + rewrite raise_for_status_ok, bool_decide_eq_false_2 by assumption.
      unfold ret. now rewrite <- !app_assoc.
  - destruct (Str.nonempty _); reflexivity.
Qed.

End PostRuns.

Lemma not_flagged_header resp :
  ~ flagged resp ->
  headers_get "X-Error" (headers resp) = None
  \/ headers_get "X-Error" (headers resp) = Some EmptyString.
Proof.
  intros Hf. destruct (headers_get "X-Error" (headers resp)) as [[|c err]|] eqn:Hh;
    auto.
  exfalso. apply Hf. exists (String c err). now split.
Qed.

(** X1.  A response that carries no [X-Error] header, or an empty one, is
    never an error for [post], whatever its status code: nothing is logged,
    nothing is raised for the status, the result is the empty mapping for a
    body of white space and what parsing the body gives otherwise. *)
Theorem post_without_error_header (W : world) (url : string) (data : value)
    (s : store) (resp : response) :
  post_answer W url data s = Ok resp ->
  ~ flagged resp ->
  post W url data s =
    (if Str.nonempty (Str.strip (text resp)) then loads W (text resp)
     else Ok (VDict []),
     after s [RequestsPost url data json_headers;
              Print ("Status code: " +:+ str W (VInt (status_code resp)));
              Print ("Response text: " +:+ text resp)]).
Proof.
  intros Ha Hf. rewrite post_run, Ha. simpl.
  now destruct (not_flagged_header resp Hf) as [-> | ->].
Qed.

Lemma post_without_error_header_witness :
  (post (serving (http 503 [("X-Error", "")] "  ") (Raise JSONDecodeError))
     "u" VNone initial_store).1 = Ok (VDict []).
Proof.
  rewrite (post_without_error_header
             (serving (http 503 [("X-Error", "")] "  ") (Raise JSONDecodeError))
             "u" VNone initial_store (http 503 [("X-Error", "")] "  ") eq_refl).
  - reflexivity.
  - intros (err & [= <-] & Hne). now apply Hne.
Defined.

(** X2.  A response with a non-empty [X-Error] header and a 4xx or 5xx
    status makes [post] raise [HTTPError] for that status, after logging
    the status and the text of the header; the body is not returned. *)
Theorem post_error_header_raises (W : world) (url : string) (data : value)
    (s : store) (resp : response) (err : string) :
  post_answer W url data s = Ok resp ->
  headers_get "X-Error" (headers resp) = Some err ->
  err <> EmptyString ->
  error_status resp ->
  exists s',
    post W url data s = (Raise (HTTPError (status_code resp)), s')
    /\ last (trace s')
       = Some (LoggerError (str W (VInt (status_code resp)) +:+ ", " +:+ err)).
Proof.
  intros Ha Hh Hne He. rewrite post_run, Ha, Hh. simpl.
  destruct err as [|c err]; [contradiction|].
  rewrite bool_decide_eq_true_2 by assumption.
  eexists. split; [reflexivity|]. simpl.
  rewrite !last_app_cons. reflexivity.
Qed.

Lemma post_error_header_raises_witness :
  exists s',
    post (serving (http 401 [("x-error", "Invalid consumer key")] "")
            (Raise JSONDecodeError)) "u" VNone initial_store
    = (Raise (HTTPError 401), s')
    /\ last (trace s') = Some (LoggerError "401, Invalid consumer key").
Proof.
  apply (post_error_header_raises
           (serving (http 401 [("x-error", "Invalid consumer key")] "")
              (Raise JSONDecodeError)) "u" VNone initial_store
           (http 401 [("x-error", "Invalid consumer key")] "")
           "Invalid consumer key");
    [reflexivity | reflexivity | discriminate | unfold error_status; simpl; lia].
Defined.

(** The events of [post]: the request first, then console and log. *)
Lemma post_trace (W : world) (url : string) (data : value) (s : store) :
  exists rest,
    trace (post W url data s).2
    = trace s ++ RequestsPost url data json_headers :: rest
    /\ Forall quiet rest.
Proof.
  rewrite post_run.
  destruct (post_answer W url data s) as [resp|e]; simpl.
  - destruct (headers_get "X-Error" (headers resp)) as [[|c err]|];
      try destruct (bool_decide (error_status resp));
      simpl; eexists; (split; [reflexivity|]); repeat constructor.
  - exists []. split; [reflexivity|constructor].
Qed.

(** X3.  Whatever the service answers, [post] sends one request, the first
    thing it does, to the address and with the payload it was given and the
    two JSON headers; everything after it is output to the console or the
    log: no second request, no retry. *)
Theorem post_single_request (W : world) (url : string) (data : value) (s : store) :
  exists rest,
    trace (post W url data s).2
    = trace s ++ RequestsPost url data json_headers :: rest
    /\ Forall quiet rest
    /\ count_events is_post (RequestsPost url data json_headers :: rest) = 1%nat.
Proof.
  destruct (post_trace W url data s) as (rest & Ht & Hq).
  exists rest. split; [exact Ht|]. split; [exact Hq|].
  simpl. f_equal. apply count_events_none.
  eapply Forall_impl; [exact Hq|]. now intros [].
Qed.

(** ** [request_code] and [request_access_token] *)

Section Fields.
Variable W : world.

(** [post], then the field [key] of what it returns. *)
Lemma post_field_unflagged url data key s resp :
  post_answer W url data s = Ok resp ->
  ~ flagged resp ->
  exists s',
    bind (post W url data) (fun r => lift (Py.getitem r key)) s =
    (match (if Str.nonempty (Str.strip (text resp)) then loads W (text resp)
            else Ok (VDict [])) with
     | Ok r => Py.getitem r key
     | Raise e => Raise e
     end, s').
Proof.
  intros Ha Hf. unfold bind.
  destruct (post_unflagged W _ _ s resp Ha Hf) as [s' ->].
  destruct (if Str.nonempty _ then _ else _); unfold lift; eauto.
Qed.

End Fields.

(** X4.  For a response that is not flagged, [request_access_token] returns
    the ["access_token"] entry of the parsed body, whatever the status code
    of the response; it raises [KeyError] when the body is a mapping
    without that entry or is blank, [TypeError] when the body parses to
    something that is not a mapping, and the parse error when the body does
    not parse. *)
Theorem request_access_token_result (W : world) (code : value) (s : store)
    (resp : response) :
  token_answer W code s = Ok resp ->
  ~ flagged resp ->
  exists s',
    (Str.strip (text resp) = EmptyString ->
     request_access_token W code s = (Raise (KeyError "access_token"), s'))
    /\ (Str.strip (text resp) <> EmptyString ->
        (forall e, loads W (text resp) = Raise e ->
                   request_access_token W code s = (Raise e, s'))
        /\ (forall d token,
              loads W (text resp) = Ok (VDict d) ->
              Py.dict_lookup "access_token" d = Some token ->
              request_access_token W code s = (Ok token, s'))
        /\ (forall d,
              loads W (text resp) = Ok (VDict d) ->
              Py.dict_lookup "access_token" d = None ->
              request_access_token W code s = (Raise (KeyError "access_token"), s'))
        /\ (forall v,
              loads W (text resp) = Ok v -> ~ is_dict v ->
              request_access_token W code s = (Raise TypeError, s'))).
Proof.
  intros Ha Hf. unfold request_access_token.
  destruct (post_field_unflagged W _ _ "access_token" s resp Ha Hf) as [s' ->].
  exists s'. split.
  - now intros ->.
  - intros Hb. destruct (Str.strip (text resp)); [contradiction|]. simpl.
    repeat split.
    + now intros e ->.
    + intros d token -> Hd. simpl. now rewrite Hd.
    + intros d -> Hd. simpl. now rewrite Hd.
    + intros v -> Hv. destruct v; simpl in *; try reflexivity. tauto.
Qed.

Lemma request_access_token_result_witness :
  (request_access_token
     (serving (http 500 [] code_text) (Ok (VDict [("access_token", VStr "T")])))
     (VStr "abc") initial_store).1 = Ok (VStr "T").
Proof.
  destruct (request_access_token_result
              (serving (http 500 [] code_text)
                 (Ok (VDict [("access_token", VStr "T")])))
              (VStr "abc") initial_store (http 500 [] code_text) eq_refl)
    as (s' & _ & H).
  - intros (err & [=] & _).
  - destruct (H ltac:(discriminate)) as (_ & Hok & _).
    now rewrite (Hok _ (VStr "T") eq_refl eq_refl).
Defined.

(** X5.  For a response that is not flagged and whose body parses to a
    mapping with a ["code"] entry, [request_code] returns that entry,
    whatever the status code; when the body parses to something that is
    not a mapping it raises [TypeError]. *)
Theorem request_code_result (W : world) (s : store) (resp : response) (v : value) :
  code_answer W s = Ok resp ->
  ~ flagged resp ->
  Str.strip (text resp) <> EmptyString ->
  loads W (text resp) = Ok v ->
  exists s',
    (forall d code,
        v = VDict d -> Py.dict_lookup "code" d = Some code ->
        request_code W s = (Ok code, s'))
    /\ (~ is_dict v -> request_code W s = (Raise TypeError, s')).
Proof.
  intros Ha Hf Hb Hl. unfold request_code.
  destruct (post_field_unflagged W _ _ "code" s resp Ha Hf) as [s' ->].
  exists s'. destruct (Str.strip (text resp)); [contradiction|]. simpl.
  rewrite Hl. split.
  - intros d code -> Hd. simpl. now rewrite Hd.
  - intros Hv. destruct v; simpl in *; try reflexivity. tauto.
Qed.

Lemma request_code_result_witness :
  (request_code (serving (http 200 [] code_text) (Ok (VDict [("code", VStr "abc")])))
     initial_store).1 = Ok (VStr "abc").
Proof.
  destruct (request_code_result
              (serving (http 200 [] code_text) (Ok (VDict [("code", VStr "abc")])))
              initial_store (http 200 [] code_text)
              (VDict [("code", VStr "abc")]) eq_refl)
    as (s' & Hok & _); [| | reflexivity |].
  - intros (err & [=] & _).
  - discriminate.
  - now rewrite (Hok _ (VStr "abc") eq_refl eq_refl).
Defined.

(** ** [authenticate_pocket] *)

(** X6.  Once [request_code] has returned a code, the browser has opened
    and the user has answered the prompt, [authenticate_pocket] goes on in
    this order and no other: the browser is opened on the authorization
    address built from that code, the prompt is shown, and one request is
    sent to the token exchange, carrying that same code; what follows is
    console output only. *)
Theorem authenticate_pocket_order (W : world) (s : store) (code : value)
    (s1 : store) (opened : bool) (line : string) :
  request_code W s = (Ok code, s1) ->
  webbrowser_open W (trace s1) (authorize_url W code) 2 = Ok opened ->
  input W (trace s1 ++ [WebbrowserOpen (authorize_url W code) 2])
    "Press any key after authorizing app..." = Ok line ->
  authenticate_pocket W s
  = request_access_token W code
      (after s1 [WebbrowserOpen (authorize_url W code) 2;
                 Input "Press any key after authorizing app..."])
  /\ exists rest,
      trace (authenticate_pocket W s).2
      = trace s1
        ++ [WebbrowserOpen (authorize_url W code) 2;
            Input "Press any key after authorizing app...";
            RequestsPost (BASE_URL +:+ "/v3/oauth/authorize")
              (VDict [("consumer_key", of_env (CONSUMER_KEY W)); ("code", code)])
              json_headers]
        ++ rest
      /\ Forall quiet rest.
Proof.
  intros Hc Ho Hi.
  assert (authenticate_pocket W s
          = request_access_token W code
              (after s1 [WebbrowserOpen (authorize_url W code) 2;
                         Input "Press any key after authorizing app..."])) as Hrun.
  { unfold authenticate_pocket. rewrite (bind_Ok _ _ _ _ _ Hc).
    unfold request_authorization. fold (authorize_url W code).
    unfold bind at 1. unfold bind at 1. unfold ask at 1. rewrite Ho.
    unfold ret. unfold bind at 1, ask. simpl. rewrite Hi.
    unfold after. simpl. now rewrite <- app_assoc. }
  split; [exact Hrun|]. rewrite Hrun.
  unfold request_access_token, bind.
  destruct (post_trace W (BASE_URL +:+ "/v3/oauth/authorize")
              (VDict [("consumer_key", of_env (CONSUMER_KEY W)); ("code", code)])
              (after s1 [WebbrowserOpen (authorize_url W code) 2;
                         Input "Press any key after authorizing app..."]))
    as (rest & Ht & Hq).
  exists rest. split; [|exact Hq].
  destruct (post W _ _ _) as [[r|e] s2]; simpl in *;
    rewrite Ht; now rewrite <- app_assoc.
Qed.

Lemma authenticate_pocket_order_witness :
  authenticate_pocket
    (serving (http 200 [] code_text) (Ok (VDict [("code", VStr "abc")])))
    initial_store
  = request_access_token
      (serving (http 200 [] code_text) (Ok (VDict [("code", VStr "abc")])))
      (VStr "abc")
      (after (request_code
                (serving (http 200 [] code_text) (Ok (VDict [("code", VStr "abc")])))
                initial_store).2
         [WebbrowserOpen
            (authorize_url
               (serving (http 200 [] code_text) (Ok (VDict [("code", VStr "abc")])))
               (VStr "abc")) 2;
          Input "Press any key after authorizing app..."]).
Proof.
  exact (proj1 (authenticate_pocket_order
                  (serving (http 200 [] code_text) (Ok (VDict [("code", VStr "abc")])))
                  initial_store (VStr "abc") _ true EmptyString
                  eq_refl eq_refl eq_refl)).
Defined.

(** X7.  When the browser cannot be opened, [authenticate_pocket] raises
    before the prompt is shown; when the prompt fails (end of input), it
    raises before anything is sent to the token exchange.  In both cases
    the exception is the one met and nothing follows it. *)
Theorem authenticate_pocket_interrupted (W : world) (s : store) (code : value)
    (s1 : store) (e : exn) :
  request_code W s = (Ok code, s1) ->
  (webbrowser_open W (trace s1) (authorize_url W code) 2 = Raise e ->
   authenticate_pocket W s
   = (Raise e, after s1 [WebbrowserOpen (authorize_url W code) 2]))
  /\ (forall opened,
        webbrowser_open W (trace s1) (authorize_url W code) 2 = Ok opened ->
        input W (trace s1 ++ [WebbrowserOpen (authorize_url W code) 2])
          "Press any key after authorizing app..." = Raise e ->
        authenticate_pocket W s
        = (Raise e,
           after s1 [WebbrowserOpen (authorize_url W code) 2;
                     Input "Press any key after authorizing app..."])).
Proof.
  intros Hc. split.
  - intros Ho. unfold authenticate_pocket. rewrite (bind_Ok _ _ _ _ _ Hc).
    unfold request_authorization. fold (authorize_url W code).
    unfold bind at 1. unfold bind at 1. unfold ask at 1. now rewrite Ho.
  - intros opened Ho Hi. unfold authenticate_pocket.
    rewrite (bind_Ok _ _ _ _ _ Hc).
    unfold request_authorization. fold (authorize_url W code).
    unfold bind at 1. unfold bind at 1. unfold ask at 1. rewrite Ho.
    unfold ret. unfold bind at 1, ask. simpl. rewrite Hi.
    unfold after. simpl. now rewrite <- app_assoc.
Qed.

Lemma authenticate_pocket_interrupted_witness :
  (authenticate_pocket no_console initial_store).1 = Raise (EnvError "EOFError").
Proof.
  rewrite (proj2 (authenticate_pocket_interrupted no_console initial_store
                    (VStr "abc") _ (EnvError "EOFError") eq_refl)
             true eq_refl eq_refl).
  reflexivity.
Defined.

(** ** [get_tag_suggestions] *)

Section SuggestionRuns.
Variable W : world.

Lemma title_of_chosen kvs s :
  title_of (VDict kvs) s
  = (Ok (chosen kvs "resolved_title" "given_title" "No title"), s).
Proof.
  unfold title_of, or_, bind, lift, ret, chosen. simpl.
  repeat case_match; congruence.
Qed.

Lemma url_of_chosen kvs s :
  url_of (VDict kvs) s = (Ok (chosen kvs "resolved_url" "given_url" "No URL"), s).
Proof.
  unfold url_of, or_, bind, lift, ret, chosen. simpl.
  repeat case_match; congruence.
Qed.

(** The run of [get_tag_suggestions] on a record, by what the model
    answers. *)
Lemma get_tag_suggestions_run kvs s :
  Groq W (GROQ_API_KEY W) = Ok tt ->
  get_tag_suggestions W (VDict kvs) s =
  let asked := [Print (requesting_line W kvs);
                ChatCreate (chat_request_for W kvs s)] in
  let failed e :=
    (Ok [], after s (asked ++ [Print ("Error getting tag suggestions from Groq: "
                                      +:+ str_exn W e)])) in
  match chat_answer W kvs s with
  | Ok (Some reply :: _) =>
      let valid := filter (fun tag => tag ∈ TAG_LIST_obj s)
                     (map Str.strip (Str.split "," (Str.strip reply))) in
      (Ok valid,
       after s (asked ++ [Print ("Suggested tags: " +:+ Str.join ", " valid)]))
  | Ok (None :: _) => failed AttributeError
  | Ok [] => failed IndexError
  | Raise e => failed e
  end.
Proof.
  intros HG. unfold get_tag_suggestions.
  rewrite (bind_Ok _ _ s tt s) by (unfold lift; now rewrite HG).
  rewrite (bind_Ok _ _ _ _ _ (title_of_chosen kvs s)).
  rewrite (bind_Ok _ _ _ _ _ (url_of_chosen kvs s)).
  unfold bind at 1. simpl. unfold bind at 1. simpl.
  unfold try_except, bind, print, emit, ask, lift, ret, read_TAG_LIST. simpl.
  unfold chat_answer, chat_request_for, requesting_line, after. simpl.
  destruct (chat_completions_create W _ _) as [[|[reply|] others]|e]; simpl;
    now rewrite <- !app_assoc.
Qed.

(** With a client, a record is always answered with a list, after three
    events: the title, the request to the model, one more line. *)
Lemma get_tag_suggestions_shape kvs s :
  Groq W (GROQ_API_KEY W) = Ok tt ->
  exists tags last_line,
    get_tag_suggestions W (VDict kvs) s
    = (Ok tags,
       after s [Print (requesting_line W kvs);
                ChatCreate (chat_request_for W kvs s);
                Print last_line]).
Proof.
  intros HG. rewrite get_tag_suggestions_run by assumption. simpl.
  destruct (chat_answer W kvs s) as [[|[reply|] others]|e]; eauto.
Qed.

End SuggestionRuns.

(** X8.  With a client and a record for the article, [get_tag_suggestions]
    never raises: it prints the title, asks the model once and prints one
    more line, without any request to the bookmarking service; when the
    call to the model raises, or the answer has no choice, or the first
    choice has no content, the result is the empty list. *)
Theorem get_tag_suggestions_isolated (W : world) (kvs : list (string * value))
    (s : store) :
  Groq W (GROQ_API_KEY W) = Ok tt ->
  exists tags last_line,
    get_tag_suggestions W (VDict kvs) s
    = (Ok tags,
       after s [Print (requesting_line W kvs);
                ChatCreate (chat_request_for W kvs s);
                Print last_line])
    /\ (forall e, chat_answer W kvs s = Raise e -> tags = [])
    /\ (chat_answer W kvs s = Ok [] -> tags = [])
    /\ (forall others, chat_answer W kvs s = Ok (None :: others) -> tags = []).
Proof.
  intros HG. rewrite get_tag_suggestions_run by assumption. simpl.
  destruct (chat_answer W kvs s) as [[|[reply|] others]|e];
    eexists _, _; (split; [reflexivity|]); repeat split; congruence.
Qed.

Lemma get_tag_suggestions_isolated_witness :
  (get_tag_suggestions offline (VDict [("given_title", VStr "Bar")])
     initial_store).1 = Ok [].
Proof.
  destruct (get_tag_suggestions_isolated offline [("given_title", VStr "Bar")]
              initial_store eq_refl) as (tags & line & Hrun & Hraise & _).
  rewrite Hrun. simpl. f_equal.
  exact (Hraise (EnvError "APIConnectionError") eq_refl).
Defined.

(** X9.  The client is built and the record is read before the [try]: when
    the construction of the client raises, or when the article is not a
    record, [get_tag_suggestions] raises (the error of the constructor,
    [AttributeError]) instead of returning the empty list, and it does so
    before anything is printed or asked. *)
Theorem get_tag_suggestions_setup_raises (W : world) (article : value) (s : store) :
  (forall e,
      Groq W (GROQ_API_KEY W) = Raise e ->
      get_tag_suggestions W article s = (Raise e, s))
  /\ (Groq W (GROQ_API_KEY W) = Ok tt -> ~ is_dict article ->
      get_tag_suggestions W article s = (Raise AttributeError, s)).
Proof.
  split.
  - intros e HG. unfold get_tag_suggestions, bind, lift. now rewrite HG.
  - intros HG Hd. unfold get_tag_suggestions.
    rewrite (bind_Ok _ _ s tt s) by (unfold lift; now rewrite HG).
    destruct article; simpl in Hd; try tauto; reflexivity.
Qed.

Lemma get_tag_suggestions_setup_raises_witness :
  get_tag_suggestions offline (VStr "not a record") initial_store
  = (Raise AttributeError, initial_store).
Proof.
  apply (proj2 (get_tag_suggestions_setup_raises offline (VStr "not a record")
                  initial_store) eq_refl).
  simpl. tauto.
Defined.

Module JoinFacts.
Import Str.
#[local] Arguments String.append !_ _ / : simpl nomatch.

Lemma split_no_sep sep p : count sep p = 0%nat -> split sep p = [p].
Proof.
  induction p as [|c p IH]; simpl; [reflexivity|].
  destruct (Ascii.eqb c sep); [discriminate|].
  intros Hc. now rewrite IH.
Qed.

Lemma split_app_sep sep p r :
  count sep p = 0%nat -> split sep (p +:+ String sep r) = p :: split sep r.
Proof.
  induction p as [|c p IH]; simpl.
  - now rewrite Ascii.eqb_refl.
  - destruct (Ascii.eqb c sep); [discriminate|].
    intros Hc. now rewrite IH.
Qed.

(** Splitting what [join] has put together gives the list back, when no
    element holds the separator. *)
Lemma split_join sep tags :
  tags <> [] -> Forall (fun t => count sep t = 0%nat) tags ->
  split sep (join (String sep EmptyString) tags) = tags.
Proof.
  intros Hne Hc. induction Hc as [|t rest Ht Hrest IH]; [contradiction|].
  destruct rest as [|t2 rest].
  - simpl. now apply split_no_sep.
  - change (join (String sep "") (t :: t2 :: rest))
      with (t +:+ String sep (join (String sep "") (t2 :: rest))).
    rewrite split_app_sep by assumption. now rewrite IH.
Qed.

(** The same with a blank after the separator, once the pieces are
    trimmed. *)
Lemma pieces_join sep tags :
  isspace sep = false ->
  tags <> [] -> Forall (fun t => count sep t = 0%nat /\ strip t = t) tags ->
  map strip (split sep (join (String sep " ") tags)) = tags.
Proof.
  intros Hsep Hne Hc. induction Hc as [|t rest [Ht Hs] Hrest IH]; [contradiction|].
  destruct rest as [|t2 rest].
  - simpl. rewrite split_no_sep by assumption. simpl. now rewrite Hs.
  - change (join (String sep " ") (t :: t2 :: rest))
      with (t +:+ String sep (String " " (join (String sep " ") (t2 :: rest)))).
    rewrite split_app_sep by assumption. rewrite map_cons, Hs. f_equal.
    rewrite <- StrFacts.split_lstrip by assumption. simpl lstrip.
    rewrite StrFacts.split_lstrip by assumption. now apply IH.
Qed.

End JoinFacts.

Lemma clean_TAG_LIST : Forall clean TAG_LIST.
Proof. unfold TAG_LIST. repeat (constructor; [split; reflexivity|]). constructor. Qed.

Lemma filter_all {A} (P : A -> Prop) `{forall x, Decision (P x)} (l : list A) :
  Forall P l -> filter P l = l.
Proof.
  induction 1 as [|x l Hx Hl IH]; [reflexivity|].
  now rewrite filter_cons_True, IH.
Qed.

Lemma clean_vocabulary tags :
  Forall (fun tag => tag ∈ TAG_LIST) tags -> Forall clean tags.
Proof.
  intros Hin. eapply Forall_impl; [exact Hin|].
  intros t Ht. exact (proj1 (Forall_forall _ _) clean_TAG_LIST t Ht).
Qed.

(** X10.  A reply in the form the prompt asks for comes back as it is: when
    the model answers with tags of the vocabulary joined by a comma and a
    blank, [get_tag_suggestions] returns exactly that list of tags, in that
    order and with its repetitions (and the empty list for an empty
    reply). *)
Theorem get_tag_suggestions_round_trip (W : world) (kvs : list (string * value))
    (s : store) (tags : list string) (others : list (option string)) :
  TAG_LIST_obj s = TAG_LIST ->
  Groq W (GROQ_API_KEY W) = Ok tt ->
  Forall (fun tag => tag ∈ TAG_LIST) tags ->
  chat_answer W kvs s = Ok (Some (Str.join ", " tags) :: others) ->
  (get_tag_suggestions W (VDict kvs) s).1 = Ok tags.
Proof.
  intros Hs HG Hin Hc. rewrite get_tag_suggestions_run, Hc by assumption.
  simpl. f_equal. rewrite Hs, StrFacts.split_strip by reflexivity.
  destruct tags as [|t rest]; [reflexivity|].
  rewrite (JoinFacts.pieces_join "," (t :: rest)); try easy.
  - now apply filter_all.
  - apply clean_vocabulary. exact Hin.
Qed.

Lemma get_tag_suggestions_round_trip_witness :
  (get_tag_suggestions (answering "video games, ai/ml, tv, tv")
     (VDict []) initial_store).1 = Ok ["video games"; "ai/ml"; "tv"; "tv"].
Proof.
  apply (get_tag_suggestions_round_trip (answering "video games, ai/ml, tv, tv")
           [] initial_store ["video games"; "ai/ml"; "tv"; "tv"] []);
    [reflexivity | reflexivity | | reflexivity].
  repeat constructor; refine (bool_decide_unpack _ _); vm_compute; exact I.
Defined.

(** X11.  What [get_tag_suggestions] returns can be sent as it is: the tags
    hold no comma, so the text [",".join(tags)] that [add_tags_to_article]
    puts into its request splits on commas into the same list of tags. *)
Theorem suggested_tags_join_split (W : world) (article : value) (s : store)
    (tags : list string) (s' : store) :
  TAG_LIST_obj s = TAG_LIST ->
  get_tag_suggestions W article s = (Ok tags, s') ->
  tags <> [] ->
  Str.split "," (Str.join "," tags) = tags.
Proof.
  intros Hs Hrun Hne. apply JoinFacts.split_join; [exact Hne|].
  apply get_tag_suggestions_inv in Hrun
    as [->|(h & req & reply & others & _ & _ & ->)]; [contradiction|].
  apply Forall_forall. intros t [Ht _]%list_elem_of_filter.
  rewrite Hs in Ht.
  exact (proj1 (proj1 (Forall_forall _ _) clean_TAG_LIST t Ht)).
Qed.

Lemma suggested_tags_join_split_witness :
  Str.split "," (Str.join "," ["dev"; "tech"]) = ["dev"; "tech"].
Proof.
  apply (suggested_tags_join_split (answering "dev, made-up-tag, tech")
           (VDict []) initial_store ["dev"; "tech"]
           (get_tag_suggestions (answering "dev, made-up-tag, tech")
              (VDict []) initial_store).2);
    [reflexivity | reflexivity | discriminate].
Defined.

(** ** [get_unread_articles] *)

Section FetchRuns.
Variable W : world.

Lemma collect_untagged_not_record items : forall articles s,
  Exists (fun p => ~ is_dict p.2) items ->
  collect_untagged items articles s = (Raise AttributeError, s).
Proof.
  induction items as [|[article_id article] rest IH]; intros articles s Hx.
  - now apply Exists_nil in Hx.
  - simpl. destruct article; try reflexivity.
    apply Exists_cons in Hx as [Hx|Hx]; [simpl in Hx; tauto|].
    unfold bind at 1, lift. simpl.
    destruct (negb _); now apply IH.
Qed.

(** The store once the request of [get_unread_articles] has been sent. *)
Lemma get_unread_articles_sent token s resp data :
  fetch_answer W token s = Ok resp ->
  loads W (text resp) = Ok data ->
  get_unread_articles W token s =
    (has_list <- lift (Py.contains "list" data) ;;
     articles <-
       (if has_list : bool then
          lst <- lift (Py.getitem data "list") ;;
          items <- lift (Py.items lst) ;;
          collect_untagged items []
        else ret []) ;;
     print ("Found " +:+ str W (VInt (Z.of_nat (length articles)))
            +:+ " unread articles without tags." +:+ Str.nl) ;;
     ret articles)
      (after s [Print "Fetching unread articles from Pocket...";
                RequestsPost "https://getpocket.com/v3/get"
                  (get_payload W token) []]).
Proof.
  unfold fetch_answer. intros Ha Hl.
  unfold get_unread_articles, requests_post_, response_json, print.
  unfold bind at 1, emit. simpl.
  unfold bind at 1, ask. simpl. rewrite Ha.
  unfold bind at 1, lift. simpl. rewrite Hl.
  unfold after. simpl. now rewrite <- app_assoc.
Qed.

Lemma get_unread_articles_dicts token s articles s' :
  get_unread_articles W token s = (Ok articles, s') ->
  Forall (fun p => is_dict p.2) articles.
Proof.
  intros Hrun.
  destruct (get_unread_articles_inv W token s articles s' Hrun)
    as (resp & data & _ & _ & [->|(entries & _ & ->)]); [constructor|].
  apply Forall_forall. intros [article_id article] [Hu _]%list_elem_of_filter.
  destruct article; simpl in *; tauto.
Qed.

End FetchRuns.

(** X12.  [get_unread_articles] handles no failure of its request: when the
    request raises, or when the body of the response does not parse, it
    raises that exception right after the request, whatever the status
    code of the response, and prints no count. *)
Theorem get_unread_articles_propagates (W : world) (token : value) (s : store)
    (e : exn) :
  (fetch_answer W token s = Raise e \/
   exists resp, fetch_answer W token s = Ok resp /\ loads W (text resp) = Raise e) ->
  get_unread_articles W token s
  = (Raise e,
     after s [Print "Fetching unread articles from Pocket...";
              RequestsPost "https://getpocket.com/v3/get" (get_payload W token) []]).
Proof.
  unfold fetch_answer, get_unread_articles, requests_post_, response_json, print.
  intros [Ha|(resp & Ha & Hl)];
    unfold bind at 1, emit; simpl; unfold bind at 1, ask; simpl; rewrite Ha.
  - unfold after. simpl. now rewrite <- app_assoc.
  - unfold bind at 1, lift. simpl. rewrite Hl.
    unfold after. simpl. now rewrite <- app_assoc.
Qed.

Lemma get_unread_articles_propagates_witness :
  (get_unread_articles offline (VStr "token") initial_store).1
  = Raise (EnvError "ConnectionError").
Proof.
  rewrite (get_unread_articles_propagates offline (VStr "token") initial_store
             (EnvError "ConnectionError") (or_introl eq_refl)).
  reflexivity.
Defined.

(** X13.  A body of another shape than a mapping of records makes
    [get_unread_articles] raise instead of returning: [TypeError] when the
    body is [null], a boolean or a number, [AttributeError] when ["list"]
    is there but is not a mapping (an empty array, for one), and
    [AttributeError] when one of the entries of ["list"] is not a
    record. *)
Theorem get_unread_articles_malformed (W : world) (token : value) (s : store)
    (resp : response) (data : value) :
  fetch_answer W token s = Ok resp ->
  loads W (text resp) = Ok data ->
  exists s',
    (match data with
     | VNone | VBool _ | VInt _ | VFloat _ => True
     | _ => False
     end ->
     get_unread_articles W token s = (Raise TypeError, s'))
    /\ (forall d lst,
          data = VDict d -> Py.dict_lookup "list" d = Some lst -> ~ is_dict lst ->
          get_unread_articles W token s = (Raise AttributeError, s'))
    /\ (forall d entries,
          data = VDict d -> Py.dict_lookup "list" d = Some (VDict entries) ->
          Exists (fun p => ~ is_dict p.2) entries ->
          get_unread_articles W token s = (Raise AttributeError, s')).
Proof.
  intros Ha Hl. rewrite (get_unread_articles_sent W token s resp data Ha Hl).
  eexists. split; [|split].
  - destruct data; try contradiction; intros _; reflexivity.
  - intros d lst -> Hd Hn. unfold bind at 1, lift. simpl. rewrite Hd. simpl.
    unfold bind at 1. unfold bind at 1. simpl.
    unfold bind at 1. destruct lst; simpl in *; try reflexivity. tauto.
  - intros d entries -> Hd Hx. unfold bind at 1, lift. simpl. rewrite Hd. simpl.
    unfold bind at 1. unfold bind at 1. simpl.
    unfold bind at 1. simpl. now rewrite collect_untagged_not_record.
Qed.

Lemma get_unread_articles_malformed_witness :
  (get_unread_articles
     (serving (http 200 [] "{}") (Ok (VDict [("list", VList [])])))
     (VStr "token") initial_store).1 = Raise AttributeError.
Proof.
  destruct (get_unread_articles_malformed
              (serving (http 200 [] "{}") (Ok (VDict [("list", VList [])])))
              (VStr "token") initial_store (http 200 [] "{}")
              (VDict [("list", VList [])]) eq_refl eq_refl)
    as (s' & _ & H & _).
  rewrite (H [("list", VList [])] (VList []) eq_refl eq_refl); [reflexivity|].
  simpl. tauto.
Defined.

(** X14.  Every record [get_unread_articles] returns is a mapping, so the
    [article.get] calls of [main] and of [get_tag_suggestions] cannot fail
    on it; and a run that returns has sent one request and printed the
    number of pairs it returns. *)
Theorem get_unread_articles_records (W : world) (token : value) (s : store)
    (articles : list (string * value)) (s' : store) :
  get_unread_articles W token s = (Ok articles, s') ->
  Forall (fun p => is_dict p.2) articles
  /\ s' = after s [Print "Fetching unread articles from Pocket...";
                   RequestsPost "https://getpocket.com/v3/get"
                     (get_payload W token) [];
                   Print ("Found " +:+ str W (VInt (Z.of_nat (length articles)))
                          +:+ " unread articles without tags." +:+ Str.nl)].
Proof.
  intros Hrun. split.
  - now apply (get_unread_articles_dicts W token s articles s').
  - destruct (get_unread_articles_inv W token s articles s' Hrun)
      as (resp & data & Ha & Hl & _).
    rewrite (get_unread_articles_sent W token s resp data Ha Hl) in Hrun.
    apply bind_inv_Ok in Hrun as (has_list & s2 & H1 & Hrun).
    apply bind_inv_Ok in Hrun as (found & s3 & H2 & Hrun).
    unfold bind, print, emit, ret in Hrun. simpl in Hrun.
    injection Hrun as <- <-.
    unfold lift in H1. injection H1 as _ <-.
    assert (s3 = after s [Print "Fetching unread articles from Pocket...";
                          RequestsPost "https://getpocket.com/v3/get"
                            (get_payload W token) []]) as ->.
    { destruct has_list.
      - apply bind_inv_Ok in H2 as (lst & s4 & H3 & H2).
        apply bind_inv_Ok in H2 as (items & s5 & H4 & H2).
        apply collect_untagged_inv in H2 as [-> _].
        unfold lift in H3, H4. congruence.
      - unfold ret in H2. congruence. }
    unfold after. simpl. now rewrite <- app_assoc.
Qed.

Lemma get_unread_articles_records_witness :
  Forall (fun p : string * value => is_dict p.2)
    [("1", VDict [("resolved_title", VStr "X"); ("tags", VDict [])])].
Proof.
  exact (proj1 (get_unread_articles_records
                  (serving (http 200 [] scenario_text) (Ok scenario_data))
                  (VStr "token") initial_store _ _ eq_refl)).
Defined.

(** C10, as the code has it.  When the parsed body of the fetch response
    does not contain ["list"] (the test ["list" in data] is false: a mapping
    without that key, an array without that element, a text without that
    part), [get_unread_articles] returns the empty list and does not raise;
    when the body is a mapping whose ["list"] maps identifiers to records,
    it returns the entries that carry no tag, in the order in which the
    mapping holds them.  On the other bodies it raises: [TypeError] for
    [null], a boolean or a number, [AttributeError] when ["list"] is not a
    mapping or one of its entries is not a record. *)
Theorem get_unread_articles_list_key (W : world) (token : value) (s : store)
    (resp : response) (data : value) :
  fetch_answer W token s = Ok resp ->
  loads W (text resp) = Ok data ->
  (Py.contains "list" data = Ok false ->
   exists s', get_unread_articles W token s = (Ok [], s'))
  /\ (forall d,
        data = VDict d -> Py.dict_lookup "list" d = None ->
        exists s', get_unread_articles W token s = (Ok [], s'))
  /\ (forall d entries,
        data = VDict d ->
        Py.dict_lookup "list" d = Some (VDict entries) ->
        Forall (fun p => is_dict p.2) entries ->
        exists articles s',
          get_unread_articles W token s = (Ok articles, s')
          /\ articles = filter (fun p => untagged p.2) entries
          /\ articles `sublist_of` entries)
  /\ (match data with
      | VNone | VBool _ | VInt _ | VFloat _ => True
      | _ => False
      end ->
      exists s', get_unread_articles W token s = (Raise TypeError, s'))
  /\ (forall d lst,
        data = VDict d -> Py.dict_lookup "list" d = Some lst -> ~ is_dict lst ->
        exists s', get_unread_articles W token s = (Raise AttributeError, s'))
  /\ (forall d entries,
        data = VDict d -> Py.dict_lookup "list" d = Some (VDict entries) ->
        Exists (fun p => ~ is_dict p.2) entries ->
        exists s', get_unread_articles W token s = (Raise AttributeError, s')).
Proof.
  intros Ha Hl. repeat apply conj.
  - intros Hc. rewrite (get_unread_articles_sent W token s resp data Ha Hl).
    unfold bind at 1, lift. rewrite Hc.
    unfold bind, ret, print, emit. simpl. eauto.
  - intros d -> Hn. now apply (get_unread_articles_no_list W token s resp d).
  - intros d entries -> Hn Hd.
    destruct (get_unread_articles_list W token s resp d entries Ha Hl Hn Hd)
      as [s' Hrun].
    eexists _, s'. split; [exact Hrun|]. split; [reflexivity|].
    apply sublist_filter.
  - rewrite (get_unread_articles_sent W token s resp data Ha Hl).
    destruct data; try contradiction; intros _; eexists; reflexivity.
  - intros d lst -> Hd Hn.
    rewrite (get_unread_articles_sent W token s resp _ Ha Hl).
    unfold bind at 1, lift. simpl. rewrite Hd. simpl.
    unfold bind at 1. unfold bind at 1. simpl.
    unfold bind at 1. destruct lst; simpl in *; try (eexists; reflexivity). tauto.
  - intros d entries -> Hd Hx.
    rewrite (get_unread_articles_sent W token s resp _ Ha Hl).
    unfold bind at 1, lift. simpl. rewrite Hd. simpl.
    unfold bind at 1. unfold bind at 1. simpl.
    unfold bind at 1. simpl. rewrite collect_untagged_not_record by assumption.
    eexists. reflexivity.
Qed.

Lemma get_unread_articles_list_key_witness :
  (exists s',
      get_unread_articles (serving (http 200 [] "{}") (Ok (VDict [])))
        (VStr "token") initial_store = (Ok [], s'))
  /\ (exists articles s',
        get_unread_articles
          (serving (http 200 [] scenario_text) (Ok scenario_data))
          (VStr "token") initial_store = (Ok articles, s')
        /\ articles
           = [("1", VDict [("resolved_title", VStr "X"); ("tags", VDict [])])]).
Proof.
  split.
  - exact (proj1 (proj2 (get_unread_articles_list_key
                           (serving (http 200 [] "{}") (Ok (VDict [])))
                           (VStr "token") initial_store (http 200 [] "{}")
                           (VDict []) eq_refl eq_refl)) [] eq_refl eq_refl).
  - destruct (proj1 (proj2 (proj2 (get_unread_articles_list_key
                       (serving (http 200 [] scenario_text) (Ok scenario_data))
                       (VStr "token") initial_store (http 200 [] scenario_text)
                       scenario_data eq_refl eq_refl))) _ _ eq_refl eq_refl)
      as (articles & s' & Hrun & Hf & _).
    + repeat constructor.
    + exists articles, s'. split; [exact Hrun|exact Hf].
Defined.

(** C10, as stated, fails: for the body [null], which holds no ["list"] key,
    the test ["list" in data] raises [TypeError]; and for the body
    [{"list": []}] the call of [.items()] raises [AttributeError], so that
    no pairs are returned. *)
Lemma get_unread_articles_raises_on_null_and_array :
  loads (serving (http 200 [] "null") (Ok VNone)) "null" = Ok VNone
  /\ (get_unread_articles (serving (http 200 [] "null") (Ok VNone))
        (VStr "token") initial_store).1 = Raise TypeError
  /\ (get_unread_articles
        (serving (http 200 [] "{}") (Ok (VDict [("list", VList [])])))
        (VStr "token") initial_store).1 = Raise AttributeError.
Proof. repeat split; reflexivity. Qed.

(** ** [add_tags_to_article] *)

Section SendRuns.
Variable W : world.

(** The run of [add_tags_to_article] for a list of tags that is not
    empty: the line, the request, and a line more when something was
    raised. *)
Lemma add_tags_to_article_run token article_id tags s :
  tags <> [] ->
  exists success rest,
    add_tags_to_article W token article_id tags s
    = (Ok success,
       after s (Print ("Adding tags to article " +:+ article_id +:+ ": "
                       +:+ Str.join ", " tags)
                :: RequestsPost (BASE_URL +:+ "/v3/send")
                     (send_payload W token article_id tags) []
                :: rest))
    /\ (rest = [] \/
        success = false
        /\ exists e, rest = [Print ("Error adding tags: " +:+ str_exn W e)]).
Proof.
  intros Hne. destruct tags as [|tag more]; [contradiction|].
  unfold add_tags_to_article, requests_post_, response_json, print, try_except.
  unfold bind at 1, emit. simpl.
  unfold bind at 1, ask. simpl.
  destruct (requests_post W _ _ _ _) as [resp|e].
  2:{ unfold bind, emit, ret, after. simpl. eexists _, _.
      rewrite <- !app_assoc. simpl. split; [reflexivity|]. right. eauto. }
  unfold bind at 1.
  destruct (error_status_dec resp) as [He|He].
  { rewrite raise_for_status_error by assumption.
    unfold bind, emit, ret, after. simpl. eexists _, _.
    rewrite <- !app_assoc. simpl. split; [reflexivity|]. right. eauto. }
  rewrite raise_for_status_ok by assumption.
  unfold bind at 1, lift.
  destruct (loads W (text resp)) as [data|e].
  2:{ unfold bind, emit, ret, after. simpl. eexists _, _.
      rewrite <- !app_assoc. simpl. split; [reflexivity|]. right. eauto. }
  destruct data; unfold bind, emit, ret, after; simpl; eexists _, _;
    rewrite <- ?app_assoc; simpl; (split; [reflexivity|]); eauto.
Qed.

End SendRuns.

Section SendCases.
Variable W : world.


End SendCases.



(** ** [main] *)

Lemma after_after s l1 l2 : after (after s l1) l2 = after s (l1 ++ l2).
Proof. unfold after. simpl. now rewrite app_assoc. Qed.

Lemma chat_requests_app l1 l2 :
  chat_requests (l1 ++ l2) = chat_requests l1 ++ chat_requests l2.
Proof.
  induction l1 as [|e l1 IH]; simpl; [reflexivity|].
  destruct e; simpl; now rewrite IH.
Qed.

Lemma after_nil s : after s [] = s.
Proof. unfold after. rewrite app_nil_r. now destruct s. Qed.

Section MainRuns.
Variable W : world.

(** One turn of the loop of [main] on a record: one request to the model,
    at most one request to the service, no exception. *)
Lemma process_article_run token article_id kvs s :
  Groq W (GROQ_API_KEY W) = Ok tt ->
  exists new,
    process_article W token (article_id, VDict kvs) s = (Ok tt, after s new)
    /\ count_events is_chat new = 1%nat
    /\ (count_events is_post new <= 1)%nat
    /\ count_events is_send new = count_events is_post new
    /\ chat_requests new = [chat_request_for W kvs s].
Proof.
  intros HG. unfold process_article.
  unfold bind at 1, lift. simpl. unfold bind at 1. simpl.
  unfold bind at 1, print, emit. simpl.
  match goal with
  | |- context [bind (get_tag_suggestions W _) _ ?st] => set (s1 := st)
  end.
  destruct (get_tag_suggestions_shape W kvs s1 HG) as (tags & line & Hg).
  unfold bind at 1. rewrite Hg.
  unfold bind at 1.
  destruct tags as [|tag more].
  - assert (forall st, add_tags_to_article W token article_id [] st = (Ok false, st))
      as -> by reflexivity.
    unfold ret. subst s1.
    change {| TAG_LIST_obj := TAG_LIST_obj s; trace := trace s ++ [?e] |}
      with (after s [e]).
    rewrite after_after. eexists. split; [reflexivity|]. simpl. auto 6.
  - destruct (add_tags_to_article_run W token article_id (tag :: more)
                (after s1 [Print (requesting_line W kvs);
                           ChatCreate (chat_request_for W kvs s1);
                           Print line]))
      as (success & rest & -> & Hrest); [discriminate|].
    unfold ret. subst s1. rewrite after_after.
    change {| TAG_LIST_obj := TAG_LIST_obj s; trace := trace s ++ [?e] |}
      with (after s [e]).
    rewrite after_after. eexists. split; [reflexivity|].
    destruct Hrest as [->|(_ & e & ->)]; simpl; auto 6.
Qed.

Lemma for_each_process_run token articles : forall s,
  Groq W (GROQ_API_KEY W) = Ok tt ->
  Forall (fun p => is_dict p.2) articles ->
  exists new,
    for_each articles (process_article W token) s = (Ok tt, after s new)
    /\ count_events is_chat new = length articles
    /\ (count_events is_post new <= length articles)%nat
    /\ count_events is_send new = count_events is_post new
    /\ chat_requests new
       = map (fun p => chat_request_for W (fields p.2) s) articles.
Proof.
  intros s HG Hd. revert s.
  induction Hd as [|[article_id article] rest Ha Hrest IH]; intros s;
    cbn [for_each length].
  - exists []. unfold ret. rewrite after_nil. simpl. auto.
  - destruct article; simpl in Ha; try contradiction.
    destruct (process_article_run token article_id kvs s HG)
      as (n1 & H1 & C1 & P1 & S1 & R1).
    destruct (IH (after s n1)) as (n2 & H2 & C2 & P2 & S2 & R2).
    exists (n1 ++ n2). unfold bind. rewrite H1, H2, after_after.
    rewrite !count_events_app, chat_requests_app, R1, R2.
    repeat split; try lia; try reflexivity.
Qed.

End MainRuns.

Section MainFacts.
Variable W : world.

Lemma post_extends_with (P : event -> Prop) url data :
  P (RequestsPost url data
       [("Content-Type", "application/json"); ("X-Accept", "application/json")]) ->
  (forall line, P (Print line)) -> (forall msg, P (LoggerError msg)) ->
  extends_trace P (post W url data).
Proof.
  intros Hp Hprint Hlog.
  unfold post, requests_post_, response_json, print, raise_for_status.
  repeat extends_step; auto.
Qed.

Lemma no_tagging_Print line : no_tagging (Print line).
Proof. now split. Qed.

Lemma no_tagging_LoggerError msg : no_tagging (LoggerError msg).
Proof. now split. Qed.

Lemma authenticate_pocket_no_tagging :
  extends_trace no_tagging (authenticate_pocket W).
Proof.
  unfold authenticate_pocket, request_code, request_access_token,
    request_authorization.
  repeat extends_step;
    try (apply post_extends_with;
         auto using no_tagging_Print, no_tagging_LoggerError);
    now split.
Qed.

Lemma collect_untagged_silent P items : forall articles,
  extends_trace P (collect_untagged items articles).
Proof.
  induction items as [|[article_id article] rest IH]; intros articles; simpl;
    repeat extends_step; apply IH.
Qed.

Lemma get_unread_articles_no_tagging token :
  extends_trace no_tagging (get_unread_articles W token).
Proof.
  unfold get_unread_articles, requests_post_, response_json, print.
  repeat extends_step; try apply collect_untagged_silent; now split.
Qed.

Lemma no_tagging_counts new :
  Forall no_tagging new ->
  count_events is_chat new = 0%nat /\ count_events is_send new = 0%nat.
Proof.
  intros H. split; apply count_events_none; eapply Forall_impl; eauto;
    now intros e [? ?].
Qed.

End MainFacts.

(** X16.  Once the authentication and the fetch have succeeded and the
    client of the model can be built, [main] runs to its end without an
    exception, whatever the model and the service answer for the single
    articles: it asks the model once for each article returned by the
    fetch and sends at most one request for each, all of them to the send
    endpoint; with no article it only prints that there is none. *)
Theorem main_completes (W : world) (s : store) (token : value) (s1 : store)
    (articles : list (string * value)) (s2 : store) :
  authenticate_pocket W s = (Ok token, s1) ->
  get_unread_articles W token
    (after s1 [Print "Successfully authenticated with Pocket"])
  = (Ok articles, s2) ->
  Groq W (GROQ_API_KEY W) = Ok tt ->
  exists new,
    main W s = (Ok tt, after s2 new)
    /\ count_events is_chat new = length articles
    /\ (count_events is_post new <= length articles)%nat
    /\ count_events is_send new = count_events is_post new
    /\ (articles = [] -> new = [Print "No unread articles found without tags."]).
Proof.
  intros Ha Hf HG. unfold main. rewrite (bind_Ok _ _ _ _ _ Ha).
  unfold bind at 1, print, emit. lazy beta iota.
  change {| TAG_LIST_obj := TAG_LIST_obj s1;
            trace := trace s1 ++ [Print "Successfully authenticated with Pocket"] |}
    with (after s1 [Print "Successfully authenticated with Pocket"]).
  rewrite (bind_Ok _ _ _ _ _ Hf).
  pose proof (get_unread_articles_dicts W token _ _ _ Hf) as Hd.
  destruct articles as [|first rest].
  - eexists. split; [reflexivity|]. simpl. auto.
  - unfold bind at 1. lazy beta iota.
    change {| TAG_LIST_obj := TAG_LIST_obj s2; trace := trace s2 ++ [?e] |}
      with (after s2 [e]).
    destruct (for_each_process_run W token (first :: rest) (after s2 [Print
                ("Processing "
                 +:+ str W (VInt (Z.of_nat (length (first :: rest))))
                 +:+ " unread articles...")]) HG Hd)
      as (new & Hrun & Hc & Hp & Hs & _).
    rewrite Hrun, after_after.
    eexists. split; [reflexivity|]. cbn [count_events is_chat is_post is_send app].
    repeat split; auto; discriminate.
Qed.

Lemma main_completes_witness :
  exists new,
    main (serving (http 200 [] code_text) (Ok session_data)) initial_store
    = (Ok tt,
       after (get_unread_articles
                (serving (http 200 [] code_text) (Ok session_data)) (VStr "T")
                (after (authenticate_pocket
                          (serving (http 200 [] code_text) (Ok session_data))
                          initial_store).2
                   [Print "Successfully authenticated with Pocket"])).2 new)
    /\ count_events is_chat new = 2%nat.
Proof.
  destruct (main_completes
              (serving (http 200 [] code_text) (Ok session_data))
              initial_store (VStr "T") _
              [("1", VDict [("resolved_title", VStr "X"); ("tags", VDict [])]);
               ("2", VDict [("given_title", VStr "Y")])]
              _ eq_refl eq_refl eq_refl)
    as (new & Hrun & Hc & _).
  exists new. split; [exact Hrun|exact Hc].
Defined.

(** X17.  A failure of the authentication or of the fetch ends the run:
    [main] raises the same exception in the same store, and up to then
    nothing was asked of the model and no request went to the send
    endpoint. *)
Theorem main_fatal (W : world) (s : store) (e : exn) (s' : store) :
  (authenticate_pocket W s = (Raise e, s')
   \/ exists token s1,
       authenticate_pocket W s = (Ok token, s1)
       /\ get_unread_articles W token
            (after s1 [Print "Successfully authenticated with Pocket"])
          = (Raise e, s')) ->
  main W s = (Raise e, s')
  /\ exists new,
      trace s' = trace s ++ new
      /\ count_events is_chat new = 0%nat
      /\ count_events is_send new = 0%nat.
Proof.
  intros [Ha|(token & s1 & Ha & Hf)].
  - split; [unfold main; now apply bind_Raise|].
    destruct (authenticate_pocket_no_tagging W s) as (new & Ht & Hn).
    rewrite Ha in Ht. exists new. split; [exact Ht|]. now apply no_tagging_counts.
  - split.
    + unfold main. rewrite (bind_Ok _ _ _ _ _ Ha).
      unfold bind at 1, print, emit. lazy beta iota. now apply bind_Raise.
    + destruct (authenticate_pocket_no_tagging W s) as (n1 & Ht1 & Hn1).
      rewrite Ha in Ht1.
      destruct (get_unread_articles_no_tagging W token
                  (after s1 [Print "Successfully authenticated with Pocket"]))
        as (n2 & Ht2 & Hn2).
      rewrite Hf in Ht2. simpl in Ht1, Ht2.
      exists (n1 ++ Print "Successfully authenticated with Pocket" :: n2).
      split; [rewrite Ht2, Ht1, <- !app_assoc; reflexivity|].
      apply no_tagging_counts, Forall_app. split; [exact Hn1|].
      constructor; [now split|exact Hn2].
Qed.

Lemma main_fatal_witness :
  main offline initial_store
  = (Raise (EnvError "ConnectionError"),
     (authenticate_pocket offline initial_store).2).
Proof.
  exact (proj1 (main_fatal offline initial_store (EnvError "ConnectionError") _
                  (or_introl eq_refl))).
Defined.

(** X18.  The construction of the client of the model is not protected:
    when it raises and the fetch has returned at least one article, [main]
    raises that exception at the first article, before the model was asked
    and before any tag was written, and the remaining articles are not
    processed. *)
Theorem main_client_failure (W : world) (s : store) (token : value) (s1 : store)
    (first : string * value) (rest : list (string * value)) (s2 : store)
    (e : exn) :
  authenticate_pocket W s = (Ok token, s1) ->
  get_unread_articles W token
    (after s1 [Print "Successfully authenticated with Pocket"])
  = (Ok (first :: rest), s2) ->
  Groq W (GROQ_API_KEY W) = Raise e ->
  exists processing article_line,
    main W s = (Raise e, after s2 [Print processing; Print article_line]).
Proof.
  intros Ha Hf HG. unfold main. rewrite (bind_Ok _ _ _ _ _ Ha).
  unfold bind at 1, print, emit. lazy beta iota.
  change {| TAG_LIST_obj := TAG_LIST_obj s1;
            trace := trace s1 ++ [Print "Successfully authenticated with Pocket"] |}
    with (after s1 [Print "Successfully authenticated with Pocket"]).
  rewrite (bind_Ok _ _ _ _ _ Hf).
  pose proof (get_unread_articles_dicts W token _ _ _ Hf) as Hd.
  apply Forall_cons in Hd as [Hd _]. destruct first as [article_id article].
  destruct article; simpl in Hd; try contradiction.
  unfold bind at 1. lazy beta iota. cbn [for_each]. unfold bind at 1.
  unfold process_article.
  unfold bind at 1, lift. simpl. unfold bind at 1. simpl.
  unfold bind at 1, print, emit. simpl.
  unfold bind at 1. unfold get_tag_suggestions, bind at 1, lift. rewrite HG.
  eexists _, _. unfold after. simpl. rewrite <- app_assoc. reflexivity.
Qed.

Lemma main_client_failure_witness :
  exists processing article_line,
    main (without_client (http 200 [] code_text) (Ok session_data)) initial_store
    = (Raise (EnvError "GroqError"),
       after (get_unread_articles
                (without_client (http 200 [] code_text) (Ok session_data))
                (VStr "T")
                (after (authenticate_pocket
                          (without_client (http 200 [] code_text) (Ok session_data))
                          initial_store).2
                   [Print "Successfully authenticated with Pocket"])).2
         [Print processing; Print article_line]).
Proof.
  exact (main_client_failure
           (without_client (http 200 [] code_text) (Ok session_data))
           initial_store (VStr "T") _
           ("1", VDict [("resolved_title", VStr "X"); ("tags", VDict [])])
           [("2", VDict [("given_title", VStr "Y")])]
           _ (EnvError "GroqError") eq_refl eq_refl eq_refl).
Defined.

(** X19.  [main] asks the model about the articles in the order in which
    the fetch returned them, once each and about nothing else: the requests
    sent to the model are, in order, the requests built from the records of
    the articles. *)
Theorem main_order (W : world) (s : store) (token : value) (s1 : store)
    (articles : list (string * value)) (s2 : store) :
  authenticate_pocket W s = (Ok token, s1) ->
  get_unread_articles W token
    (after s1 [Print "Successfully authenticated with Pocket"])
  = (Ok articles, s2) ->
  Groq W (GROQ_API_KEY W) = Ok tt ->
  exists new,
    trace (main W s).2 = trace s2 ++ new
    /\ chat_requests new
       = map (fun p => chat_request_for W (fields p.2) s2) articles.
Proof.
  intros Ha Hf HG. unfold main. rewrite (bind_Ok _ _ _ _ _ Ha).
  unfold bind at 1, print, emit. lazy beta iota.
  change {| TAG_LIST_obj := TAG_LIST_obj s1;
            trace := trace s1 ++ [Print "Successfully authenticated with Pocket"] |}
    with (after s1 [Print "Successfully authenticated with Pocket"]).
  rewrite (bind_Ok _ _ _ _ _ Hf).
  pose proof (get_unread_articles_dicts W token _ _ _ Hf) as Hd.
  destruct articles as [|first rest].
  - eexists. split; reflexivity.
  - unfold bind at 1. lazy beta iota.
    change {| TAG_LIST_obj := TAG_LIST_obj s2; trace := trace s2 ++ [?e] |}
      with (after s2 [e]).
    destruct (for_each_process_run W token (first :: rest) (after s2 [Print
                ("Processing "
                 +:+ str W (VInt (Z.of_nat (length (first :: rest))))
                 +:+ " unread articles...")]) HG Hd)
      as (new & Hrun & _ & _ & _ & Hr).
    rewrite Hrun, after_after.
    eexists. split; [reflexivity|]. exact Hr.
Qed.

Lemma main_order_witness :
  exists new,
    trace (main (serving (http 200 [] code_text) (Ok session_data))
             initial_store).2
    = trace (get_unread_articles
               (serving (http 200 [] code_text) (Ok session_data)) (VStr "T")
               (after (authenticate_pocket
                         (serving (http 200 [] code_text) (Ok session_data))
                         initial_store).2
                  [Print "Successfully authenticated with Pocket"])).2 ++ new
    /\ length (chat_requests new) = 2%nat.
Proof.
  destruct (main_order
              (serving (http 200 [] code_text) (Ok session_data))
              initial_store (VStr "T") _
              [("1", VDict [("resolved_title", VStr "X"); ("tags", VDict [])]);
               ("2", VDict [("given_title", VStr "Y")])]
              _ eq_refl eq_refl eq_refl)
    as (new & Ht & Hr).
  exists new. split; [exact Ht|]. now rewrite Hr.
Defined.
